(** * restfulpy: the documentation recorder of [restfulpy.testing.documentation]

    A shallow embedding of [RequestSignature], [FormParameter] and
    [DocumentaryTestApp.document] (with [_ensure_file]), followed by the
    properties of signature deduplication, parameter merging and URL
    grouping.  The rest of the recorder ([jwt_token], [send_request]) and
    [MetadataField] of [restfulpy.orm.metadata] come after them, with
    further properties at the end.

    Conventions of the embedding.
    - Python [str] is [string]; the text is taken to be ASCII, so [lower],
      [upper], [strip] and [splitlines] act on the ASCII letters, blanks and
      line breaks only.
    - A [dict] is an association list in iteration order (keys are unique in
      a well-formed one); [None]-or-object arguments are [option]s.
    - [hash] of a tuple of strings is taken to be free of collisions: the
      hash of a signature is its tuple.
    - Class attributes shared by all instances ([_files], [_signatures]) and
      the files under the destination directory form the recorder state,
      threaded through [document]. *)

From Stdlib Require Import Ascii String ZArith.
From stdpp Require Import gmap strings list fin_maps pretty.

Local Open Scope string_scope.

(** ** Python built-ins used by the recorder *)

Module Py.

(** [ch in s] for a one-character [ch]. *)
Fixpoint occurs (ch : ascii) (s : string) : bool :=
  match s with
  | EmptyString => false
  | String c s' => if decide (c = ch) then true else occurs ch s'
  end.

(** [s.split(sep)] for a one-character separator: never empty. *)
Fixpoint split (sep : ascii) (s : string) : list string :=
  match s with
  | EmptyString => [EmptyString]
  | String c s' =>
      if decide (c = sep) then EmptyString :: split sep s'
      else match split sep s' with
           | x :: xs => String c x :: xs
           | [] => [String c EmptyString]
           end
  end.

(** [sep.join(parts)]. *)
Fixpoint join (sep : string) (parts : list string) : string :=
  match parts with
  | [] => ""
  | [x] => x
  | x :: xs => x +:+ sep +:+ join sep xs
  end.

(** [str.isspace] on one ASCII character: TAB..CR, FS..US and the blank. *)
Definition isspace (c : ascii) : bool :=
  let n := N_of_ascii c in
  ((9 <=? n) && (n <=? 13) || (28 <=? n) && (n <=? 32))%N.

Fixpoint lstrip (s : string) : string :=
  match s with
  | EmptyString => EmptyString
  | String c s' => if isspace c then lstrip s' else s
  end.

Fixpoint rstrip (s : string) : string :=
  match s with
  | EmptyString => EmptyString
  | String c s' =>
      match rstrip s' with
      | EmptyString => if isspace c then EmptyString else String c EmptyString
      | r => String c r
      end
  end.

(** [s.strip()]. *)
Definition strip (s : string) : string := lstrip (rstrip s).

Definition lower_char (c : ascii) : ascii :=
  let n := N_of_ascii c in
  if ((65 <=? n) && (n <=? 90))%N then ascii_of_N (n + 32) else c.

Definition upper_char (c : ascii) : ascii :=
  let n := N_of_ascii c in
  if ((97 <=? n) && (n <=? 122))%N then ascii_of_N (n - 32) else c.

Fixpoint map_chars (f : ascii -> ascii) (s : string) : string :=
  match s with
  | EmptyString => EmptyString
  | String c s' => String (f c) (map_chars f s')
  end.

(** [s.lower()] and [s.upper()]. *)
Definition lower : string -> string := map_chars lower_char.
Definition upper : string -> string := map_chars upper_char.

(** [ch * n]. *)
Fixpoint times (ch : ascii) (n : nat) : string :=
  match n with
  | O => EmptyString
  | S n' => String ch (times ch n')
  end.

(** The characters at which [str.splitlines] breaks a line, CR apart:
    LF, VT, FF, FS, GS, RS. *)
Definition linebreak (c : ascii) : bool :=
  let n := N_of_ascii c in
  ((10 <=? n) && (n <=? 12) || (28 <=? n) && (n <=? 30))%N.

Definition is_cr (c : ascii) : bool := (N_of_ascii c =? 13)%N.
Definition is_lf (c : ascii) : bool := (N_of_ascii c =? 10)%N.

(** [s.splitlines()], [cur] being the line read so far; CR LF counts as
    one break, and no empty line follows the last break. *)
Fixpoint splitlines_from (cur s : string) : list string :=
  match s with
  | EmptyString =>
      match cur with EmptyString => [] | _ => [cur] end
  | String c s' =>
      if is_cr c then
        match s' with
        | String c' s'' =>
            if is_lf c' then cur :: splitlines_from EmptyString s''
            else cur :: splitlines_from EmptyString s'
        | EmptyString => cur :: splitlines_from EmptyString s'
        end
      else if linebreak c then cur :: splitlines_from EmptyString s'
      else splitlines_from (cur +:+ String c EmptyString) s'
  end.

Definition splitlines (s : string) : list string :=
  splitlines_from EmptyString s.

(** [s.startswith(ch)] and [s.endswith(ch)]. *)
Definition startswith (ch : ascii) (s : string) : bool :=
  match s with
  | String c _ => bool_decide (c = ch)
  | EmptyString => false
  end.

Fixpoint endswith (ch : ascii) (s : string) : bool :=
  match s with
  | EmptyString => false
  | String c EmptyString => bool_decide (c = ch)
  | String _ s' => endswith ch s'
  end.

(** [os.path.join(a, b)] of posixpath. *)
Definition path_join (a b : string) : string :=
  if startswith "/" b then b
  else if bool_decide (a = "") || endswith "/" a then a +:+ b
  else a +:+ "/" +:+ b.

(** [os.path.basename(p)] of posixpath: what follows the last slash. *)
Definition basename (p : string) : string :=
  List.last (split "/" p) "".

(** The values the recorder formats: examples, defaults, query values. *)
Inductive value : Set :=
| VNone
| VBool (b : bool)
| VInt (z : Z)
| VStr (s : string).

(** [str(v)], which is also what [%s] prints. *)
Definition str (v : value) : string :=
  match v with
  | VNone => "None"
  | VBool true => "True"
  | VBool false => "False"
  | VInt z => pretty z
  | VStr s => s
  end.

(** Classes met as parameter types ([column.type.python_type], [str]). *)
Inductive class : Set :=
| Cstr | Cint | Cbool | Cfloat
| Cother (name : string).

(** [cls.__name__]. *)
Definition class_name (c : class) : string :=
  match c with
  | Cstr => "str"
  | Cint => "int"
  | Cbool => "bool"
  | Cfloat => "float"
  | Cother n => n
  end.

(** The exceptions the model raises. *)
Inductive exn : Set :=
| ValueError (msg : string)
| TypeError (msg : string).

(** The outcome of a call: a value or a raised exception. *)
Inductive result (A : Type) : Type :=
| Ok (a : A)
| Raise (e : exn).
Global Arguments Ok {A} a.
Global Arguments Raise {A} e.

(** Truth value of a list or dict that may be [None]. *)
Definition truthy {A} (o : option (list A)) : bool :=
  match o with
  | Some (_ :: _) => true
  | _ => false
  end.

Global Instance value_eq_dec : EqDecision value.
Proof. solve_decision. Defined.
Global Instance class_eq_dec : EqDecision class.
Proof. solve_decision. Defined.

End Py.

(** ** Grouping: [document], the lines that choose entity and file name *)

(** [url.split('?')[0].split('/')[1:]] *)
Definition path_parts (url : string) : list string :=
  tail (Py.split "/" (hd "" (Py.split "?" url))).

(** The pair [(entity, filename)] before the file name is joined to the
    destination directory.  With no segment at all the two-name unpacking of
    [path_parts[0:2]] raises. *)
Definition resolve_group (method url : string) : Py.result (string * string) :=
  match path_parts url with
  | [seg] =>
      let p := Py.strip seg in
      let name := if bool_decide (p = "") then "index" else p in
      Py.Ok (name, name)
  | version :: entity :: _ =>
      Py.Ok (entity, Py.join "_" [version; entity; Py.lower method])
  | [] =>
      Py.Raise (Py.ValueError "not enough values to unpack (expected 2, got 0)")
  end.

(** ** The data model *)

(** What [type_] of a parameter holds when it is not [None]: a tag such as
    ['file'] or ['attachment'], or a class. *)
Inductive ptype : Set :=
| TName (tag : string)
| TClass (c : Py.class).

Global Instance ptype_eq_dec : EqDecision ptype.
Proof. solve_decision. Defined.

Module FormParameter.

Record t : Set := Build {
  name : string;
  value : Py.value;
  type_ : option ptype;
  optional : option bool;
  default : Py.value
}.

(** [__hash__] is [hash(self.name)], taken free of collisions, and [__eq__]
    compares hashes: [param == other] is equality of names, also against a
    plain string. *)
Definition hash (p : t) : string := name p.

(** [type_string] *)
Definition type_string (p : t) : string :=
  match type_ p with
  | None => ""
  | Some (TName s) => s
  | Some (TClass c) => Py.class_name c
  end.

(** [value_string]; [basename] of a value that is no path raises. *)
Definition value_string (p : t) : Py.result Py.value :=
  match value p with
  | Py.VNone => Py.Ok (Py.VStr "")
  | v =>
      if bool_decide (type_ p = Some (TName "file")) then
        match v with
        | Py.VStr path => Py.Ok (Py.VStr (Py.basename path))
        | _ => Py.Raise (Py.TypeError "expected str, bytes or os.PathLike object")
        end
      else if bool_decide (type_ p = Some (TClass Py.Cbool)) then
        Py.Ok (Py.VStr (Py.lower (Py.str v)))
      else Py.Ok v
  end.

End FormParameter.

Module RequestSignature.

Record t : Set := Build {
  role : string;
  method : string;
  url : string;
  query_string : option (list string)
}.

(** [__hash__]: the hash of the tuple, which stands for itself. *)
Definition hash (s : t) : string * string * string * option (list string) :=
  (role s, method s, url s, query_string s).

(** [__eq__] *)
Definition eq (a b : t) : Prop := hash a = hash b.

End RequestSignature.

(** A column as the merger reads it: [c] is what [iter_json_columns] yields
    and [column] is [model.get_column(c)]. *)
Module Column.

(** [column.default], when there is one: scalar with its [arg], or not. *)
Inductive default_ : Set :=
| Scalar (arg : Py.value)
| NonScalar.

Record t : Set := Build {
  json : string;                (* c.info['json'] *)
  default : option default_;    (* column.default, None when absent *)
  attachment : bool;            (* 'attachment' in column.info *)
  unreadable : bool;            (* column.info has a true 'unreadable' *)
  python_type : Py.class;       (* column.type.python_type *)
  nullable : bool               (* column.nullable *)
}.

End Column.

(** The response, as far as an entry shows it: the header items and the
    text [resp.body.decode()] gives. *)
Record Response : Set := {
  headers : list (string * string);
  body : string
}.

(** A [dict] of query values or headers. *)
Abbreviation dict A := (list (string * A)).

(** ** The parameter merger: [document], the loop over the columns *)

(** [default_] of one column *)
Definition resolve_default (column : Column.t) : Py.value :=
  match Column.default column with
  | Some (Column.Scalar arg) => arg
  | Some Column.NonScalar => Py.VStr "function(...)"
  | None => Py.VStr ""
  end.

(** [type_] of one column *)
Definition resolve_type (column : Column.t) : ptype :=
  if Column.attachment column then TName "attachment"
  else if Column.unreadable column then TClass Py.Cstr
  else TClass (Column.python_type column).

(** [params.index(json_name)]: the first position whose parameter equals
    the name; [json_name in params] holds exactly when there is one. *)
Fixpoint index (json_name : string) (params : list FormParameter.t) : option nat :=
  match params with
  | [] => None
  | p :: ps =>
      if bool_decide (FormParameter.hash p = json_name) then Some 0
      else S <$> index json_name ps
  end.

(** The three assignments to a parameter found in the list. *)
Definition backfill (column : Column.t) (param : FormParameter.t) : FormParameter.t :=
  {| FormParameter.name := FormParameter.name param;
     FormParameter.value := FormParameter.value param;
     FormParameter.type_ :=
       match FormParameter.type_ param with
       | None => Some (resolve_type column)
       | Some ty => Some ty
       end;
     FormParameter.optional :=
       match FormParameter.optional param with
       | None => Some (Column.nullable column)
       | Some o => Some o
       end;
     FormParameter.default := resolve_default column |}.

(** [FormParameter(json_name, type_=type_, optional=column.nullable,
    default=default_)] *)
Definition synthesize (column : Column.t) : FormParameter.t :=
  {| FormParameter.name := Column.json column;
     FormParameter.value := Py.VNone;
     FormParameter.type_ := Some (resolve_type column);
     FormParameter.optional := Some (Column.nullable column);
     FormParameter.default := resolve_default column |}.

(** The body of the loop for one column. *)
Definition merge_column (params : list FormParameter.t) (column : Column.t)
  : list FormParameter.t :=
  match index (Column.json column) params with
  | Some i => alter (backfill column) i params
  | None => params ++ [synthesize column]
  end.

(** The loop. *)
Definition merge_params (columns : list Column.t) (params : list FormParameter.t)
  : list FormParameter.t :=
  foldl merge_column params columns.

(** The columns whose wire name is [name], in iteration order. *)
Definition named (name : string) (columns : list Column.t) : list Column.t :=
  filter (fun c => Column.json c = name) columns.

(** All the assignments a parameter receives, one column after another. *)
Definition backfill_all (param : FormParameter.t) (columns : list Column.t)
  : FormParameter.t :=
  foldl (fun p c => backfill c p) param columns.

(** ** Writing an entry *)

(** What a stretch of code inside [try] does to the open file: the text it
    wrote, and the value it ended with or the exception it raised. *)
Definition writer (A : Type) : Type := string * Py.result A.

Definition wret {A} (a : A) : writer A := ("", Py.Ok a).

Definition wbind {A B} (m : writer A) (k : A -> writer B) : writer B :=
  match m with
  | (t, Py.Ok a) => let '(t', r) := k a in (t +:+ t', r)
  | (t, Py.Raise e) => (t, Py.Raise e)
  end.

(** [f.write(s)] *)
Definition write (s : string) : writer unit := (s, Py.Ok tt).

(** An expression evaluated for its value, which may raise. *)
Definition eval {A} (r : Py.result A) : writer A := ("", r).

Global Instance writer_ret : MRet writer := @wret.
Global Instance writer_bind : MBind writer := fun A B k m => wbind m k.

(** [for x in l: body] *)
Fixpoint for_each {A} (l : list A) (body : A -> writer unit) : writer unit :=
  match l with
  | [] => wret tt
  | x :: l' => body x ;; for_each l' body
  end.

(** [if cond: body] *)
Definition when (cond : bool) (body : writer unit) : writer unit :=
  if cond then body else wret tt.

Definition nl : string := String "010"%char "".
Definition indent : string := Py.times " "%char 12.

(** [%s] of [None], [True] or [False] in the Optional column. *)
Definition str_optional (o : option bool) : string :=
  match o with
  | None => "None"
  | Some b => Py.str (Py.VBool b)
  end.

(** One row of the table of form parameters. *)
Definition write_param (method : string) (param : FormParameter.t) : writer unit :=
  example ← eval (FormParameter.value_string param);
  write ("        | " +:+ FormParameter.name param
         +:+ " | " +:+ str_optional
               (if bool_decide (Py.lower method = "put") then Some true
                else FormParameter.optional param)
         +:+ " | " +:+ FormParameter.type_string param
         +:+ " | " +:+ match FormParameter.default param with
                       | Py.VNone => ""
                       | d => Py.str d
                       end
         +:+ " | " +:+ Py.str example +:+ " |" +:+ nl).

(** The body of [try] up to the write of the two closing line feeds. *)
Definition write_entry (role method url : string) (resp : Response)
    (request_headers : option (dict string))
    (params : option (list FormParameter.t))
    (query_string : option (dict Py.value)) : writer unit :=
  write (nl +:+ "- (" +:+ role +:+ ") **" +:+ Py.upper method +:+ "** `" +:+ url +:+ "`" +:+ nl);;
  when (Py.truthy params)
    (write (nl +:+ "    - Form Parameters:" +:+ nl +:+ nl);;
     write ("        | Parameter | Optional | Type | Default | Example |" +:+ nl);;
     write ("        | --------- | -------- | ---- | ------- | ------- |" +:+ nl);;
     for_each (default [] params) (write_param method));;
  when (Py.truthy query_string)
    (write (nl +:+ "    - Query String:" +:+ nl +:+ nl);;
     write ("        | Parameter | Example |" +:+ nl);;
     write ("        | --------- | ------- |" +:+ nl);;
     for_each (default [] query_string) (fun '(name, value) =>
       write ("        | " +:+ name +:+ " | " +:+ Py.str value +:+ " |" +:+ nl)));;
  when (Py.truthy request_headers)
    (write (nl +:+ "    - Request Headers:" +:+ nl +:+ nl);;
     for_each (default [] request_headers) (fun '(k, v) =>
       write (indent +:+ k +:+ ": " +:+ v +:+ nl)));;
  write (nl +:+ "    - Response Headers:" +:+ nl +:+ nl);;
  for_each (headers resp) (fun '(k, v) =>
    write (indent +:+ k +:+ ": " +:+ v +:+ nl));;
  write (nl +:+ "    - Response Body:" +:+ nl +:+ nl);;
  for_each (Py.splitlines (body resp)) (fun l =>
    write (indent +:+ l +:+ nl));;
  write (nl +:+ nl).

(** ** The recorder *)

(** What [self] holds that [document] reads. *)
Record DocumentaryTestApp : Set := {
  destination_dir : string;
  version : string                (* application.version *)
}.

(** The class attributes [_files] and [_signatures], shared by every
    instance, and the content of the files by path.  A set of signatures
    keeps one of each hash, so it is the set of their hashes. *)
Record state : Type := State {
  _files : list string;
  _signatures : gset (string * string * string * option (list string));
  files : gmap string string
}.

(** [open(filename, 'a')]: the file exists afterwards. *)
Definition open_append (filename : string) (fs : gmap string string)
  : gmap string string :=
  <[filename := default "" (fs !! filename)]> fs.

(** Writes through a handle opened on [filename] land at its end. *)
Definition fwrite (filename text : string) (fs : gmap string string)
  : gmap string string :=
  <[filename := default "" (fs !! filename) +:+ text]> fs.

(** [tuple(query_string.keys()) if query_string else None] *)
Definition query_keys (query_string : option (dict Py.value))
  : option (list string) :=
  if Py.truthy query_string then Some (fst <$> default [] query_string) else None.

Section Recorder.

(** [DOC_HEADER % dict(version=...)]: the template is a constant of
    [restfulpy.testing.constants], which is not among the sources. *)
Variable DOC_HEADER : string -> string.

(** [_ensure_file]: the state once the file is open; directories are not
    modelled. *)
Definition _ensure_file (self : DocumentaryTestApp) (st : state)
    (filename entity : string) : state :=
  if bool_decide (filename ∈ _files st) then
    State (_files st) (_signatures st) (open_append filename (files st))
  else
    State (_files st ++ [filename]) (_signatures st)
      (<[filename := DOC_HEADER (version self)
                     +:+ (nl +:+ entity)
                     +:+ (nl +:+ Py.times "-"%char (String.length entity) +:+ nl)]>
         (files st)).

(** [document]: the state and the caller's [params] list afterwards, and
    how the call ended. *)
Definition document (self : DocumentaryTestApp) (st : state)
    (role method url : string) (resp : Response)
    (request_headers : option (dict string))
    (model : option (list Column.t))
    (params : option (list FormParameter.t))
    (query_string : option (dict Py.value))
  : state * option (list FormParameter.t) * Py.result unit :=
  let signature := RequestSignature.Build role method url (query_keys query_string) in
  if bool_decide (RequestSignature.hash signature ∈ _signatures st) then
    (st, params, Py.Ok tt)
  else
    match resolve_group method url with
    | Py.Raise e => (st, params, Py.Raise e)
    | Py.Ok (entity, filename) =>
        let filename := Py.path_join (destination_dir self) (filename +:+ ".md") in
        let st := _ensure_file self st filename entity in
        let params :=
          match model with
          | Some columns =>
              if Py.truthy params then merge_params columns <$> params else params
          | None => params
          end in
        let '(text, r) := write_entry role method url resp request_headers params query_string in
        (* finally: f.write('\n'); f.close() *)
        let fs := fwrite filename (text +:+ nl) (files st) in
        let seen :=
          match r with
          | Py.Ok _ => {[RequestSignature.hash signature]} ∪ _signatures st
          | Py.Raise _ => _signatures st
          end in
        (State (_files st) seen fs, params, r)
    end.

End Recorder.

(** ** Sample inputs, for the examples below *)

(** A string column [title] with the scalar default ['untitled']. *)
Definition title_column : Column.t :=
  Column.Build "title" (Some (Column.Scalar (Py.VStr "untitled")))
    false false Py.Cstr false.

Definition price_column : Column.t :=
  Column.Build "price" None false false Py.Cint true.

(** [FormParameter('title', 'Dune', type_=None)] *)
Definition title_param : FormParameter.t :=
  FormParameter.Build "title" (Py.VStr "Dune") None (Some false) Py.VNone.

(** Two parameters of one name, as a form with a repeated field has. *)
Definition tag_first : FormParameter.t :=
  FormParameter.Build "title" (Py.VStr "a") None None (Py.VStr "x").
Definition tag_second : FormParameter.t :=
  FormParameter.Build "title" (Py.VStr "b") None None (Py.VStr "y").

Definition sample_header (version : string) : string := "API " +:+ version.

Definition sample_app : DocumentaryTestApp :=
  {| destination_dir := "docs"; version := "0.1" |}.

Definition sample_response : Response :=
  {| headers := [("Content-Type", "application/json")]; body := "{}" |}.

Definition other_response : Response :=
  {| headers := []; body := "[1, 2]" |}.

Definition fresh : state := State [] ∅ ∅.

(** [{'a': 1, 'b': 2}], the same keys with other values, and the same
    dict built in the other order. *)
Definition query_ab : option (dict Py.value) :=
  Some [("a", Py.VInt 1); ("b", Py.VInt 2)].
Definition query_ab_other : option (dict Py.value) :=
  Some [("a", Py.VStr "x"); ("b", Py.VStr "y")].
Definition query_ba : option (dict Py.value) :=
  Some [("b", Py.VInt 2); ("a", Py.VInt 1)].

(** The state after [/widgets] was documented once with [query_ab]. *)
Definition documented_ab : state :=
  (document sample_header sample_app fresh "admin" "GET" "/widgets"
     sample_response None None None query_ab).1.1.

(** * The rest of the recorder and the field metadata *)

(** A parameter whose example makes [value_string] raise: an upload, by its
    type ['file'], whose value is neither [None] nor a string. *)
Definition unprintable (param : FormParameter.t) : bool :=
  bool_decide (FormParameter.type_ param = Some (TName "file"))
  && match FormParameter.value param with
     | Py.VNone | Py.VStr _ => false
     | _ => true
     end.

(** A list of parameters in which every column of [columns] has its
    parameter, with a type, an optionality and the default of the last
    column of its wire name. *)
Definition settled (columns : list Column.t) (params : list FormParameter.t) : Prop :=
  forall c : Column.t, c ∈ columns ->
    exists (i : nat) (p : FormParameter.t) (latest : Column.t),
      index (Column.json c) params = Some i
      /\ params !! i = Some p
      /\ is_Some (FormParameter.type_ p)
      /\ is_Some (FormParameter.optional p)
      /\ last (named (Column.json c) columns) = Some latest
      /\ FormParameter.default p = resolve_default latest.

(** ** The token of the test client: [jwt_token] *)

(** [__jwt_header_key__] *)
Definition jwt_header_key : string := "HTTP_X_JWT_TOKEN".

(** What the property reads and writes: [_jwt_token], where [VNone] is
    [None], and the [extra_environ] dict of the test client. *)
Record client : Type := Client {
  _jwt_token : Py.value;
  extra_environ : gmap string Py.value
}.

(** The getter of [jwt_token]. *)
Definition jwt_token (self : client) : Py.value := _jwt_token self.

(** The setter of [jwt_token]. *)
Definition set_jwt_token (value : Py.value) (self : client) : client :=
  match value with
  | Py.VNone => Client value (delete jwt_header_key (extra_environ self))
  | _ => Client value (<[jwt_header_key := value]> (extra_environ self))
  end.

(** A client that carries a session cookie and no token. *)
Definition sample_client : client :=
  Client Py.VNone {[ "HTTP_COOKIE" := Py.VStr "sid=1" ]}.

(** ** Sending a request: [send_request] *)

(** [d[k] = v] on a dict: the value is replaced where the key stands, or the
    item is added at the end. *)
Fixpoint dict_set (k : string) (v : Py.value) (d : dict Py.value) : dict Py.value :=
  match d with
  | [] => [(k, v)]
  | (k', v') :: d' =>
      if bool_decide (k' = k) then (k, v) :: d' else (k', v') :: dict_set k v d'
  end.

(** [d.get(k)] *)
Fixpoint dict_get (k : string) (d : dict Py.value) : option Py.value :=
  match d with
  | [] => None
  | (k', v') :: d' => if bool_decide (k' = k) then Some v' else dict_get k d'
  end.

(** [d.update(other)] *)
Definition dict_update (d other : dict Py.value) : dict Py.value :=
  foldl (fun acc kv => dict_set kv.1 kv.2 acc) d other.

(** [params] as [send_request] takes it: a plain dict or a list of
    parameters. *)
Inductive params_arg : Type :=
| PDict (d : dict Py.value)
| PList (l : list FormParameter.t).

(** The keyword arguments handed on to the test client: the four that
    [send_request] reads or writes, and the others as they came. *)
Module Kwargs.

Record t : Type := Build {
  upload_files : option (list (string * Py.value));
  params : option (dict Py.value);
  headers : option (dict string);
  expect_errors : option bool;
  others : dict Py.value
}.

End Kwargs.

(** The loop over a list of parameters: uploads go to [files], the others
    into the [parameters] dict. *)
Definition sort_params (params : list FormParameter.t)
  : list (string * Py.value) * dict Py.value :=
  foldl (fun (acc : list (string * Py.value) * dict Py.value) param =>
           if bool_decide (FormParameter.type_ param = Some (TName "file"))
           then ((acc.1 ++ [(FormParameter.name param, FormParameter.value param)])%list,
                 acc.2)
           else (acc.1,
                 dict_set (FormParameter.name param) (FormParameter.value param) acc.2))
        ([], []) params.

(** [send_request] up to [parameters.update(query_string)]: the uploads,
    the parameter bag, whether the call is still to be documented, and
    whether the warning was given.  A plain dict that is not empty is the
    bag itself. *)
Definition gather (params : option params_arg)
    (query_string : option (dict Py.value)) (doc : bool)
  : list (string * Py.value) * dict Py.value * bool * bool :=
  let '(files, parameters, doc, warned) :=
    match params with
    | Some (PDict (kv :: d)) => ([], kv :: d, false, doc)
    | Some (PList (p :: ps)) =>
        ((sort_params (p :: ps)).1, (sort_params (p :: ps)).2, doc, false)
    | _ => ([], [], doc, false)
    end in
  (files,
   if Py.truthy query_string
   then dict_update parameters (default [] query_string)
   else parameters,
   doc, warned).

(** The keyword arguments of the call to the test client. *)
Definition call_kwargs (files : list (string * Py.value))
    (parameters : dict Py.value) (kwargs : Kwargs.t) : Kwargs.t :=
  {| Kwargs.upload_files :=
       match files with [] => Kwargs.upload_files kwargs | _ => Some files end;
     Kwargs.params :=
       match parameters with [] => Kwargs.params kwargs | _ => Some parameters end;
     Kwargs.headers := Kwargs.headers kwargs;
     Kwargs.expect_errors := Some true;
     Kwargs.others := Kwargs.others kwargs |}.

(** What a call of [send_request] leaves: the recorder, the object the
    caller passed as [params], whether the warning was given, and the
    response returned or the exception raised. *)
Record sent : Type := Sent {
  after : state;
  params_after : option params_arg;
  warned : bool;
  returned : Py.result Response
}.

Section SendRequest.

Variable DOC_HEADER : string -> string.

(** [url % url_params], for the values of [url_params] that are true;
    [None] stands for a missing or false one. *)
Variable UrlParams : Type.
Variable percent : string -> UrlParams -> Py.result string.

(** [urllib.parse.quote] *)
Variable quote : string -> string.

(** [getattr(self, name)(real_url, **kwargs)]: the request method of the
    test client, which raises when there is none of that name. *)
Variable request : string -> string -> Kwargs.t -> Py.result Response.

(** [send_request] *)
Definition send_request (self : DocumentaryTestApp) (st : state)
    (role method url : string) (query_string : option (dict Py.value))
    (url_params : option UrlParams) (params : option params_arg)
    (model : option (list Column.t)) (doc : bool) (kwargs : Kwargs.t) : sent :=
  let '(files, parameters, doc, warned) := gather params query_string doc in
  let params :=
    match params with
    | Some (PDict (_ :: _)) => Some (PDict parameters)
    | _ => params
    end in
  let kwargs := call_kwargs files parameters kwargs in
  match match url_params with
        | Some values => percent url values
        | None => Py.Ok url
        end with
  | Py.Raise e => Sent st params warned (Py.Raise e)
  | Py.Ok real_url =>
      match request (Py.lower method) (quote real_url) kwargs with
      | Py.Raise e => Sent st params warned (Py.Raise e)
      | Py.Ok resp =>
          if doc then
            let '(st', listed, r) :=
              document DOC_HEADER self st role method url resp
                (Kwargs.headers kwargs) model
                match params with
                | Some (PList l) => Some l
                | Some (PDict _) => Some []
                | None => None
                end
                query_string in
            Sent st'
              match params with
              | Some (PList _) => PList <$> listed
              | _ => params
              end
              warned
              match r with Py.Ok _ => Py.Ok resp | Py.Raise e => Py.Raise e end
          else Sent st params warned (Py.Ok resp)
      end
  end.

End SendRequest.

(** ** Field metadata: [restfulpy.orm.metadata] *)

(** The truth value of a Python value. *)
Definition truth (v : Py.value) : bool :=
  match v with
  | Py.VNone => false
  | Py.VBool b => b
  | Py.VInt z => negb (z =? 0)%Z
  | Py.VStr s => negb (bool_decide (s = ""))
  end.

(** A column as [from_column] reads it.  An attribute that may be missing
    is an [option]: [type_] is [c.type] with its [python_type] and, when it
    has one, its [length]; [target] is [c.target.name]; [default] is
    [c.default] when the column has one that is true. *)
Module Attribute.

Record sa_type : Set := Type_ {
  python_type : Py.class;
  length : option Py.value
}.

Record t : Type := Build {
  key : string;
  name : string;
  info : gmap string Py.value;
  default : option Column.default_;
  type_ : option sa_type;
  target : option string;
  nullable : option bool
}.

End Attribute.

Module MetadataField.

Record t : Set := Build {
  json_name : Py.value;
  key : string;
  type_ : ptype;
  default_ : Py.value;
  optional : option bool;
  pattern : Py.value;
  max_length : Py.value;
  min_length : Py.value;
  message : Py.value;
  watermark : Py.value
}.

(** [key[1:] if key.startswith('_') else key] *)
Definition public_key (key : string) : string :=
  match key with
  | String c rest => if bool_decide (c = "_"%char) then rest else key
  | EmptyString => key
  end.

(** [__init__] *)
Definition init (json_name : Py.value) (key : string) (type_ : ptype)
    (default_ : Py.value) (optional : option bool)
    (pattern max_length min_length message watermark : Py.value) : t :=
  Build json_name (public_key key) type_ default_ optional pattern max_length
    min_length message watermark.

(** [type_name] *)
Definition type_name (f : t) : string :=
  match type_ f with
  | TName s => s
  | TClass c => Py.class_name c
  end.

(** [to_json] *)
Definition to_json (f : t) : dict Py.value :=
  [ ("name", json_name f);
    ("key", Py.VStr (key f));
    ("type_", Py.VStr (type_name f));
    ("default", default_ f);
    ("optional", match optional f with
                 | Some b => Py.VBool b
                 | None => Py.VNone
                 end);
    ("pattern", pattern f);
    ("maxLength", max_length f);
    ("minLength", min_length f);
    ("message", message f);
    ("watermark", watermark f) ].

(** What [from_column] raises. *)
Inductive error : Set :=
| KeyError (key : string)
| AttributeError (msg : string).

Inductive outcome : Set :=
| Fields (fields : list t)
| Failed (e : error).

(** [from_column]; an [info] that is missing or empty gives way to the
    [info] of the column. *)
Definition from_column (c : Attribute.t) (info : option (gmap string Py.value))
  : outcome :=
  let info :=
    match info with
    | Some i => if bool_decide (i = ∅) then Attribute.info c else i
    | None => Attribute.info c
    end in
  match info !! "json" with
  | None => Failed (KeyError "json")
  | Some json_name =>
      if bool_decide (is_Some (info !! "attachment")) then
        Fields
          [ init (Py.VStr (Py.str json_name +:+ "Url"))
              (Attribute.key c +:+ "_url") (TName "url") Py.VNone None
              Py.VNone Py.VNone Py.VNone
              (default (Py.VStr "Invalid File") (info !! "message")) Py.VNone;
            init (Py.VStr (Py.str json_name +:+ "Thumbnails"))
              (Attribute.key c +:+ "_thumbnails") (TName "dict") Py.VNone None
              Py.VNone Py.VNone Py.VNone
              (default (Py.VStr "Invalid File") (info !! "message")) Py.VNone ]
      else
        let default_ :=
          match Attribute.default c with
          | Some (Column.Scalar arg) => arg
          | Some Column.NonScalar => Py.VStr "function(...)"
          | None => Py.VStr ""
          end in
        match
          if truth (default Py.VNone (info !! "unreadable")) then Some (TName "str")
          else match Attribute.type_ c with
               | Some ty => Some (TClass (Attribute.python_type ty))
               | None => TName <$> Attribute.target c
               end
        with
        | None =>
            Failed (AttributeError
                      ("Unable to recognize type of the column: "
                       +:+ Attribute.name c))
        | Some type_ =>
            Fields
              [ init json_name (Attribute.key c) type_ default_
                  (Attribute.nullable c)
                  (default Py.VNone (info !! "pattern"))
                  match info !! "max_length" with
                  | Some v => v
                  | None =>
                      match Attribute.type_ c with
                      | Some ty => default Py.VNone (Attribute.length ty)
                      | None => Py.VNone
                      end
                  end
                  (default Py.VNone (info !! "min_length"))
                  (default (Py.VStr "Invalid Value") (info !! "message"))
                  (default Py.VNone (info !! "watermark")) ]
        end
  end.

End MetadataField.

(** The column that the merger of [document] sees in a column that
    [from_column] reads, when it has what the merger reads without asking: a
    wire name that is a string, a type and a nullability. *)
Definition merger_column (c : Attribute.t) : option Column.t :=
  match Attribute.info c !! "json", Attribute.type_ c, Attribute.nullable c with
  | Some (Py.VStr json), Some ty, Some nullable =>
      Some (Column.Build json (Attribute.default c)
              (bool_decide (is_Some (Attribute.info c !! "attachment")))
              (truth (default Py.VNone (Attribute.info c !! "unreadable")))
              (Attribute.python_type ty) nullable)
  | _, _, _ => None
  end.

(** A column [_photo] marked as an attachment, with no type of its own. *)
Definition photo_attribute : Attribute.t :=
  Attribute.Build "_photo" "photo"
    {[ "json" := Py.VStr "photo"; "attachment" := Py.VBool true ]}
    None None None None.

(** A relationship [owner], known by its target only. *)
Definition owner_attribute : Attribute.t :=
  Attribute.Build "owner" "owner" {[ "json" := Py.VStr "owner" ]}
    None None (Some "member") None.

(** A column with a wire name and nothing that tells its type. *)
Definition untyped_attribute : Attribute.t :=
  Attribute.Build "ghost" "ghost" {[ "json" := Py.VStr "ghost" ]}
    None None None None.

(** A string column [title] of length 50 with the scalar default
    ['untitled']. *)
Definition title_attribute : Attribute.t :=
  Attribute.Build "title" "title" {[ "json" := Py.VStr "title" ]}
    (Some (Column.Scalar (Py.VStr "untitled")))
    (Some (Attribute.Type_ Py.Cstr (Some (Py.VInt 50)))) None (Some false).

(** ** More sample inputs *)

(** [FormParameter('photo', 5, type_='file')]: an upload whose value is no
    path. *)
Definition broken_upload : FormParameter.t :=
  FormParameter.Build "photo" (Py.VInt 5) (Some (TName "file")) (Some false) Py.VNone.

(** The state after the documentation of [broken_upload] raised. *)
Definition after_failure : state :=
  (document sample_header sample_app fresh "admin" "POST" "/photos"
     sample_response None None (Some [broken_upload]) None).1.1.

(** A test client for the examples: every request is answered with
    [sample_response], the URL template is filled by writing the value
    behind it, and nothing needs quoting. *)
Definition sample_percent (url values : string) : Py.result string :=
  Py.Ok (url +:+ values).
Definition sample_quote (url : string) : string := url.
Definition sample_request (name url : string) (kwargs : Kwargs.t)
  : Py.result Response := Py.Ok sample_response.
Definition no_kwargs : Kwargs.t := Kwargs.Build None None None None [].

(** * Properties *)

(** ** Facts about [split] *)

Section Split.

Variable sep : ascii.

Lemma split_not_nil (s : string) : Py.split sep s <> [].
Proof.
  induction s as [|c s IH]; simpl; [done|].
  case_decide; [done|]. by destruct (Py.split sep s).
Qed.

Lemma split_absent (a : string) :
  Py.occurs sep a = false -> Py.split sep a = [a].
Proof.
  induction a as [|c a IH]; simpl; [done|].
  case_decide; [done|]. intros Ha. by rewrite IH.
Qed.

Lemma split_app_sep (a b : string) :
  Py.occurs sep a = false ->
  Py.split sep (a +:+ String sep b) = a :: Py.split sep b.
Proof.
  induction a as [|c a IH]; simpl.
  - intros _. by rewrite decide_True.
  - case_decide; [done|]. intros Ha. by rewrite IH.
Qed.

Lemma split_hd_app (a b : string) :
  Py.occurs sep a = false ->
  hd "" (Py.split sep (a +:+ b)) = a +:+ hd "" (Py.split sep b).
Proof.
  induction a as [|c a IH]; simpl; [done|].
  case_decide; [done|]. intros Ha. specialize (IH Ha).
  destruct (Py.split sep (a +:+ b)) as [|x xs] eqn:E.
  - by destruct (split_not_nil (a +:+ b)).
  - simpl in *. by rewrite IH.
Qed.

End Split.

Lemma append_empty_r (s : string) : s +:+ "" = s.
Proof.
  induction s as [|c s IH]; [done|].
  change (String c (s +:+ "") = String c s). by rewrite IH.
Qed.

(** The path of a URL: what precedes the first question mark. *)
Lemma path_of_url (path rest : string) :
  Py.occurs "?" path = false ->
  rest = "" \/ Py.startswith "?" rest = true ->
  hd "" (Py.split "?" (path +:+ rest)) = path.
Proof.
  intros Hp Hr. rewrite split_hd_app by done.
  destruct Hr as [->|Hr]; [apply append_empty_r|].
  destruct rest as [|c rest]; [done|]. simpl in Hr.
  apply bool_decide_eq_true in Hr as ->. simpl. apply append_empty_r.
Qed.

(** ** Grouping *)

Lemma resolve_group_single (method url seg : string) :
  path_parts url = [seg] ->
  resolve_group method url =
    Py.Ok (if bool_decide (Py.strip seg = "") then ("index", "index")
           else (Py.strip seg, Py.strip seg)).
Proof. unfold resolve_group. intros ->. by case_bool_decide. Qed.

Lemma resolve_group_multi (method url s1 s2 : string) (more : list string) :
  path_parts url = s1 :: s2 :: more ->
  resolve_group method url = Py.Ok (s2, s1 +:+ "_" +:+ s2 +:+ "_" +:+ Py.lower method).
Proof. unfold resolve_group. by intros ->. Qed.

Lemma resolve_group_no_slash (method url : string) :
  Py.occurs "/" url = false ->
  exists e, resolve_group method url = Py.Raise e.
Proof.
  intros Hu. unfold resolve_group, path_parts.
  assert (Hp : Py.occurs "/" (hd "" (Py.split "?" url)) = false).
  { clear method. induction url as [|c u IH]; simpl in *; [done|].
    case_decide; [done|]. case_decide; [done|]. specialize (IH Hu).
    destruct (Py.split "?" u) as [|x xs] eqn:E; simpl in *.
    - by destruct (decide (c = "/"%char)).
    - by destruct (decide (c = "/"%char)). }
  rewrite (split_absent _ _ Hp). simpl. by eexists.
Qed.

Lemma path_parts_single (seg query : string) :
  Py.occurs "/" seg = false -> Py.occurs "?" seg = false ->
  query = "" \/ Py.startswith "?" query = true ->
  path_parts ("/" +:+ seg +:+ query) = [seg].
Proof.
  intros Hs Hq Hr. unfold path_parts.
  change ("/" +:+ seg +:+ query) with (String "/" seg +:+ query).
  rewrite path_of_url; [|by simpl|done].
  simpl. by rewrite split_absent.
Qed.

Lemma path_parts_multi (s1 s2 rest : string) :
  Py.occurs "/" s1 = false -> Py.occurs "?" s1 = false ->
  Py.occurs "/" s2 = false -> Py.occurs "?" s2 = false ->
  rest = "" \/ Py.startswith "/" rest = true \/ Py.startswith "?" rest = true ->
  exists more, path_parts ("/" +:+ s1 +:+ "/" +:+ s2 +:+ rest) = s1 :: s2 :: more.
Proof.
  intros H1 Q1 H2 Q2 Hr. unfold path_parts.
  change ("/" +:+ s1 +:+ "/" +:+ s2 +:+ rest)
    with (String "/" (s1 +:+ String "/" (s2 +:+ rest))).
  assert (Hhd : exists tl, (tl = "" \/ Py.startswith "/" tl = true) /\
     hd "" (Py.split "?" (String "/" (s1 +:+ String "/" (s2 +:+ rest))))
     = String "/" (s1 +:+ String "/" (s2 +:+ tl))).
  { exists (hd "" (Py.split "?" rest)). split.
    - destruct Hr as [->|[Hr|Hr]]; [by left| |];
        destruct rest as [|c rest]; try done; simpl in Hr;
        apply bool_decide_eq_true in Hr as ->; simpl.
      + right. by destruct (Py.split "?" rest).
      + by left.
    - change (String "/" (s1 +:+ String "/" (s2 +:+ rest)))
        with (String "/" "" +:+ (s1 +:+ (String "/" "" +:+ (s2 +:+ rest)))).
      rewrite !split_hd_app by done. done. }
  destruct Hhd as (tl & Htl & ->). simpl.
  rewrite split_app_sep by done.
  destruct Htl as [->|Htl].
  - rewrite append_empty_r, split_absent by done. by eexists.
  - destruct tl as [|c tl]; [done|]. simpl in Htl.
    apply bool_decide_eq_true in Htl as ->.
    rewrite split_app_sep by done. by eexists.
Qed.

(** C3 (amended).  The group (file name before the directory and the
    extension are put around it) and the entity heading come from the path,
    which is the URL up to its first question mark, cut at the slashes after
    the leading one.  A path of one segment groups under the segment with
    the blanks around it stripped, or under index when nothing is left, and
    the entity is the group.  A path of two or more segments has the second
    segment as entity and segment1_segment2_method as group, the method in
    lower case.  So /widgets gives widgets and widgets, /v1/widgets/create
    with POST gives v1_widgets_post and widgets, and / gives index.  Pairs
    read (entity, group). *)
Theorem grouping_rule (method : string) :
  (forall seg query : string,
      Py.occurs "/" seg = false -> Py.occurs "?" seg = false ->
      query = "" \/ Py.startswith "?" query = true ->
      resolve_group method ("/" +:+ seg +:+ query) =
        Py.Ok (if bool_decide (Py.strip seg = "") then ("index", "index")
               else (Py.strip seg, Py.strip seg)))
  /\ (forall s1 s2 rest : string,
      Py.occurs "/" s1 = false -> Py.occurs "?" s1 = false ->
      Py.occurs "/" s2 = false -> Py.occurs "?" s2 = false ->
      rest = "" \/ Py.startswith "/" rest = true \/ Py.startswith "?" rest = true ->
      resolve_group method ("/" +:+ s1 +:+ "/" +:+ s2 +:+ rest) =
        Py.Ok (s2, s1 +:+ "_" +:+ s2 +:+ "_" +:+ Py.lower method))
  /\ resolve_group method "/widgets" = Py.Ok ("widgets", "widgets")
  /\ resolve_group "POST" "/v1/widgets/create" = Py.Ok ("widgets", "v1_widgets_post")
  /\ resolve_group method "/" = Py.Ok ("index", "index").
Proof.
  split; [|split; [|done]].
  - intros seg query Hs Hq Hr.
    by apply resolve_group_single, path_parts_single.
  - intros s1 s2 rest H1 Q1 H2 Q2 Hr.
    destruct (path_parts_multi s1 s2 rest) as [more Hm]; [done..|].
    by eapply resolve_group_multi.
Qed.

Lemma grouping_rule_witness :
  resolve_group "GET" "/ widgets ?page=2" = Py.Ok ("widgets", "widgets")
  /\ resolve_group "Put" "/v1/widgets/7?x=1" = Py.Ok ("widgets", "v1_widgets_put").
Proof.
  split.
  - exact (proj1 (grouping_rule "GET") " widgets " "?page=2"
             eq_refl eq_refl (or_intror eq_refl)).
  - exact (proj1 (proj2 (grouping_rule "Put")) "v1" "widgets" "/7?x=1"
             eq_refl eq_refl eq_refl eq_refl (or_intror (or_introl eq_refl))).
Defined.

(** C3 as stated fails where a lone segment has blanks around it: the
    segment of [/ ] is one blank, which is not empty, and the group is
    index; the segment of [/ a] starts with a blank and the group does
    not. *)
Lemma grouping_blank_segment_counterexample :
  path_parts "/ " = [" "]
  /\ resolve_group "GET" "/ " = Py.Ok ("index", "index")
  /\ path_parts "/ a" = [" a"]
  /\ resolve_group "GET" "/ a" = Py.Ok ("a", "a")
  /\ resolve_group "GET" "/ a" <> Py.Ok (" a", " a").
Proof. repeat split; done. Qed.

(** ** The parameter merger *)

Lemma index_lookup (n : string) (ps : list FormParameter.t) (i : nat) :
  index n ps = Some i ->
  exists p, ps !! i = Some p /\ FormParameter.name p = n.
Proof.
  revert i. induction ps as [|q ps IH]; intros i; simpl; [done|].
  case_bool_decide as Hq.
  - intros [= <-]. by exists q.
  - destruct (index n ps) as [j|]; [|done]. intros [= <-].
    by apply IH.
Qed.

Lemma index_is_Some (n : string) (ps : list FormParameter.t) (i : nat) (p : FormParameter.t) :
  ps !! i = Some p -> FormParameter.name p = n ->
  exists j, index n ps = Some j /\ j <= i.
Proof.
  revert i. induction ps as [|q ps IH]; intros i; simpl; [done|].
  intros Hi Hn. case_bool_decide as Hq.
  - exists 0. split; [done|lia].
  - destruct i as [|i]; simpl in Hi.
    + by injection Hi as ->.
    + destruct (IH i Hi Hn) as (j & -> & Hj). exists (S j). split; [done|lia].
Qed.

Lemma index_app (n : string) (ps qs : list FormParameter.t) (i : nat) :
  index n ps = Some i -> index n (ps ++ qs) = Some i.
Proof.
  revert i. induction ps as [|q ps IH]; intros i; simpl; [done|].
  case_bool_decide; [done|].
  destruct (index n ps) as [j|]; [|done]. by rewrite (IH j).
Qed.

Lemma index_alter (n : string) (c : Column.t) (k : nat) (ps : list FormParameter.t) :
  index n (alter (backfill c) k ps) = index n ps.
Proof.
  unfold alter. revert k. induction ps as [|q ps IH]; intros k; [done|].
  destruct k as [|k]; simpl; [done|]. by rewrite IH.
Qed.

Lemma index_merge_column (n : string) (c : Column.t) (ps : list FormParameter.t) (i : nat) :
  index n ps = Some i -> index n (merge_column ps c) = Some i.
Proof.
  intros Hi. unfold merge_column.
  destruct (index (Column.json c) ps) as [k|].
  - by rewrite index_alter.
  - by apply index_app.
Qed.

Lemma merge_column_lookup (c : Column.t) (ps : list FormParameter.t) (i : nat) (p : FormParameter.t) :
  ps !! i = Some p ->
  merge_column ps c !! i =
    Some (if bool_decide (index (Column.json c) ps = Some i) then backfill c p else p).
Proof.
  intros Hi. unfold merge_column.
  destruct (index (Column.json c) ps) as [k|] eqn:Hk.
  - case_bool_decide as Hki.
    + injection Hki as ->. by rewrite list_lookup_alter_eq, Hi.
    + rewrite list_lookup_alter_ne; [done|congruence].
  - rewrite bool_decide_eq_false_2 by done. by apply lookup_app_l_Some.
Qed.

(** Where a caller's parameter ends up: at its place, with the
    assignments of the columns of its name when it is the first of that
    name, and as it was when it is not. *)
Lemma merge_params_lookup (columns : list Column.t) :
  forall (ps : list FormParameter.t) (i : nat) (p : FormParameter.t),
  ps !! i = Some p ->
  merge_params columns ps !! i =
    Some (if bool_decide (index (FormParameter.name p) ps = Some i)
          then backfill_all p (named (FormParameter.name p) columns)
          else p).
Proof.
  unfold merge_params, named, backfill_all.
  induction columns as [|c cs IH]; intros ps i p Hi; simpl.
  - rewrite Hi. by case_bool_decide.
  - pose proof (merge_column_lookup c ps i p Hi) as Hc.
    destruct (index_is_Some (FormParameter.name p) ps i p Hi eq_refl) as (j & Hj & _).
    pose proof (index_merge_column _ c _ _ Hj) as Hj'.
    rewrite (IH _ _ _ Hc). f_equal.
    rewrite filter_cons.
    case_bool_decide as Hci.
    + destruct (index_lookup _ _ _ Hci) as (q & Hq & Hn).
      assert (q = p) as -> by congruence.
      rewrite <- Hn in Hci. assert (j = i) as -> by congruence.
      simpl. rewrite Hj', Hj.
      rewrite !bool_decide_eq_true_2 by done.
      by rewrite decide_True.
    + rewrite Hj', Hj. case_bool_decide as Hji; [|done].
      rewrite decide_False; [done|].
      intros Hn. apply Hci. rewrite Hn. congruence.
Qed.

Lemma backfill_all_name (cs : list Column.t) (p : FormParameter.t) :
  FormParameter.name (backfill_all p cs) = FormParameter.name p.
Proof.
  revert p. induction cs as [|c cs IH]; intros p; [done|].
  unfold backfill_all in *. simpl. by rewrite IH.
Qed.

Lemma backfill_all_value (cs : list Column.t) (p : FormParameter.t) :
  FormParameter.value (backfill_all p cs) = FormParameter.value p.
Proof.
  revert p. induction cs as [|c cs IH]; intros p; [done|].
  unfold backfill_all in *. simpl. by rewrite IH.
Qed.

Lemma backfill_all_type (cs : list Column.t) (p : FormParameter.t) :
  FormParameter.type_ (backfill_all p cs) =
    match FormParameter.type_ p with
    | Some ty => Some ty
    | None => resolve_type <$> head cs
    end.
Proof.
  revert p. induction cs as [|c cs IH]; intros p.
  - simpl. by destruct (FormParameter.type_ p).
  - unfold backfill_all in *. simpl. rewrite IH. simpl.
    by destruct (FormParameter.type_ p).
Qed.

Lemma backfill_all_optional (cs : list Column.t) (p : FormParameter.t) :
  FormParameter.optional (backfill_all p cs) =
    match FormParameter.optional p with
    | Some o => Some o
    | None => Column.nullable <$> head cs
    end.
Proof.
  revert p. induction cs as [|c cs IH]; intros p.
  - simpl. by destruct (FormParameter.optional p).
  - unfold backfill_all in *. simpl. rewrite IH. simpl.
    by destruct (FormParameter.optional p).
Qed.

Lemma backfill_all_default (cs : list Column.t) (p : FormParameter.t) :
  FormParameter.default (backfill_all p cs) =
    from_option resolve_default (FormParameter.default p) (last cs).
Proof.
  revert p. induction cs as [|c cs IH]; intros p; [done|].
  unfold backfill_all in *. simpl. rewrite IH, last_cons. simpl.
  by destruct (last cs).
Qed.

(** C2 (amended).  For every caller parameter list and every list of
    columns, a caller parameter keeps its place, its name and its example
    value, and a type or an optionality it already has.  When it is the
    first parameter of its name in the list and columns carry that wire
    name, its default becomes the default resolved from the last such
    column, whatever it was, and its type and optionality, where unset
    (None), become those of the first such column.  A parameter that is not
    the first of its name, or whose name no column carries, is left as it
    was.  So a parameter title with type None, merged with the string column
    title of scalar default untitled, comes out named title, of type str,
    with default untitled and its example value unchanged. *)
Theorem merge_precedence :
  (forall (columns : list Column.t) (params : list FormParameter.t)
          (i : nat) (param : FormParameter.t),
      params !! i = Some param ->
      exists merged : FormParameter.t,
        merge_params columns params !! i = Some merged
        /\ FormParameter.name merged = FormParameter.name param
        /\ FormParameter.value merged = FormParameter.value param
        /\ (forall ty, FormParameter.type_ param = Some ty ->
                       FormParameter.type_ merged = Some ty)
        /\ (forall o, FormParameter.optional param = Some o ->
                      FormParameter.optional merged = Some o)
        /\ (index (FormParameter.name param) params = Some i ->
            forall first latest : Column.t,
              head (named (FormParameter.name param) columns) = Some first ->
              last (named (FormParameter.name param) columns) = Some latest ->
              FormParameter.default merged = resolve_default latest
              /\ (FormParameter.type_ param = None ->
                  FormParameter.type_ merged = Some (resolve_type first))
              /\ (FormParameter.optional param = None ->
                  FormParameter.optional merged = Some (Column.nullable first)))
        /\ (index (FormParameter.name param) params <> Some i
            \/ named (FormParameter.name param) columns = [] ->
            merged = param))
  /\ (forall (example default : Py.value) (optional : option bool),
      merge_params [title_column]
        [FormParameter.Build "title" example None optional default]
      = [FormParameter.Build "title" example (Some (TClass Py.Cstr))
           (Some (from_option id false optional)) (Py.VStr "untitled")]).
Proof.
  split.
  - intros columns params i param Hi.
    rewrite (merge_params_lookup columns params i param Hi).
    eexists. split; [done|].
    case_bool_decide as Hfirst.
    + rewrite backfill_all_name, backfill_all_value, backfill_all_type,
        backfill_all_optional, backfill_all_default.
      split; [done|]. split; [done|].
      split; [by intros ty ->|]. split; [by intros o ->|].
      split.
      * intros _ first latest Hhd Hlast. rewrite Hhd, Hlast. simpl.
        split; [done|]. split; by intros ->.
      * intros [Hne | Hnil]; [done|]. by rewrite Hnil.
    + split; [done|]. split; [done|].
      split; [done|]. split; [done|]. split; done.
  - intros example default optional. by destruct optional.
Qed.

Lemma merge_precedence_witness :
  [title_param] !! 0 = Some title_param
  /\ exists merged : FormParameter.t,
       merge_params [price_column; title_column] [title_param] !! 0 = Some merged
       /\ FormParameter.name merged = "title"
       /\ FormParameter.value merged = Py.VStr "Dune"
       /\ FormParameter.type_ merged = Some (TClass Py.Cstr)
       /\ FormParameter.optional merged = Some false
       /\ FormParameter.default merged = Py.VStr "untitled".
Proof.
  split; [reflexivity|].
  destruct (proj1 merge_precedence [price_column; title_column] [title_param]
              0 title_param eq_refl)
    as (merged & Hm & Hname & Hvalue & _ & Hopt & Hfirst & _).
  destruct (Hfirst eq_refl title_column title_column eq_refl eq_refl)
    as (Hdefault & Htype & _).
  exists merged.
  split; [exact Hm|]. split; [exact Hname|]. split; [exact Hvalue|].
  split; [exact (Htype eq_refl)|]. split; [exact (Hopt false eq_refl)|].
  exact Hdefault.
Defined.

(** C2 as stated fails on a list that holds two parameters of one name:
    the second has the wire name of the column, and neither its default is
    overwritten nor its unset type filled in. *)
Lemma merge_duplicate_name_counterexample :
  merge_params [title_column] [tag_first; tag_second] !! 1 = Some tag_second
  /\ FormParameter.name tag_second = Column.json title_column
  /\ FormParameter.default tag_second <> resolve_default title_column
  /\ FormParameter.type_ tag_second = None
  /\ merge_params [title_column] [tag_first; tag_second] !! 0
     = Some (FormParameter.Build "title" (Py.VStr "a") (Some (TClass Py.Cstr))
               (Some false) (Py.VStr "untitled")).
Proof. repeat split; done. Qed.

(** ** Deduplication *)

Section Dedup.

Variable DOC_HEADER : string -> string.

(** A request whose signature is in the set: nothing happens. *)
Lemma document_seen (self : DocumentaryTestApp) (st : state)
    (role method url : string) (resp : Response)
    (request_headers : option (dict string)) (model : option (list Column.t))
    (params : option (list FormParameter.t))
    (query_string : option (dict Py.value)) :
  RequestSignature.hash
    (RequestSignature.Build role method url (query_keys query_string))
    ∈ _signatures st ->
  document DOC_HEADER self st role method url resp request_headers model
    params query_string = (st, params, Py.Ok tt).
Proof. intros Hin. unfold document. by rewrite bool_decide_eq_true_2. Qed.

(** A call that returns leaves the signature in the set. *)
Lemma document_records (self : DocumentaryTestApp) (st st' : state)
    (role method url : string) (resp : Response)
    (request_headers : option (dict string)) (model : option (list Column.t))
    (params params' : option (list FormParameter.t))
    (query_string : option (dict Py.value)) :
  document DOC_HEADER self st role method url resp request_headers model
    params query_string = (st', params', Py.Ok tt) ->
  RequestSignature.hash
    (RequestSignature.Build role method url (query_keys query_string))
    ∈ _signatures st'.
Proof.
  unfold document. case_bool_decide as Hin.
  - by intros [= <- _].
  - destruct (resolve_group method url) as [[entity filename]|e]; [|done].
    destruct (write_entry _ _ _ _ _ _ _) as [text [[]|e]]; [|done].
    intros [= <- _]. simpl. set_solver.
Qed.

(** A call that raises leaves the set as it was. *)
Lemma document_raise_signatures (self : DocumentaryTestApp) (st st' : state)
    (role method url : string) (resp : Response)
    (request_headers : option (dict string)) (model : option (list Column.t))
    (params params' : option (list FormParameter.t))
    (query_string : option (dict Py.value)) (e : Py.exn) :
  document DOC_HEADER self st role method url resp request_headers model
    params query_string = (st', params', Py.Raise e) ->
  _signatures st' = _signatures st.
Proof.
  unfold document. case_bool_decide as Hin; [done|].
  destruct (resolve_group method url) as [[entity filename]|e']; [|by intros [= <- _]].
  destruct (write_entry _ _ _ _ _ _ _) as [text [[]|e']]; [done|].
  intros [= <- _]. simpl. by unfold _ensure_file; case_bool_decide.
Qed.

(** The first documentation of a signature: the file of the group, opened
    by [_ensure_file], receives the text of one entry and the closing line
    feed, and the parameters come back merged. *)
Lemma document_unseen (self : DocumentaryTestApp) (st : state)
    (role method url : string) (resp : Response)
    (request_headers : option (dict string)) (model : option (list Column.t))
    (params : option (list FormParameter.t))
    (query_string : option (dict Py.value)) (entity group : string) :
  RequestSignature.hash
    (RequestSignature.Build role method url (query_keys query_string))
    ∉ _signatures st ->
  resolve_group method url = Py.Ok (entity, group) ->
  let filename := Py.path_join (destination_dir self) (group +:+ ".md") in
  let opened := _ensure_file DOC_HEADER self st filename entity in
  let merged :=
    match model with
    | Some columns =>
        if Py.truthy params then merge_params columns <$> params else params
    | None => params
    end in
  let out := write_entry role method url resp request_headers merged query_string in
  exists seen,
    document DOC_HEADER self st role method url resp request_headers model
      params query_string
    = (State (_files opened) seen (fwrite filename (out.1 +:+ nl) (files opened)),
       merged, out.2).
Proof.
  intros Hnew Hgroup. unfold document.
  rewrite bool_decide_eq_false_2, Hgroup by done. simpl.
  destruct (write_entry _ _ _ _ _ _ _) as [text r]. by eexists.
Qed.

(** C1 (amended).  For every recorder state, documenting a request whose
    role, method, URL and tuple of query-string key names, taken in the
    iteration order of the mapping (None for an absent or empty one), are
    those of an already documented request is a no-op: the files, the list
    of opened files, the set of signatures and the parameter list are what
    they were.  So documenting the same role, method, URL and key sequence
    twice yields one entry, the second call adding nothing, whatever the
    query values, the parameters, the schema, the headers and the response
    body of the two calls.  Two signatures are equal exactly when these four
    components are, the keys compared as a sequence.  The first
    documentation of a signature, when it returns, has appended the text of
    one entry and a line feed to the file of the group. *)
Theorem dedup_by_signature :
  (forall (self : DocumentaryTestApp) (st : state) (role method url : string)
          (resp : Response) (request_headers : option (dict string))
          (model : option (list Column.t))
          (params : option (list FormParameter.t))
          (query_string : option (dict Py.value)),
      RequestSignature.hash
        (RequestSignature.Build role method url (query_keys query_string))
        ∈ _signatures st ->
      document DOC_HEADER self st role method url resp request_headers model
        params query_string = (st, params, Py.Ok tt))
  /\ (forall (self : DocumentaryTestApp) (st st1 : state)
          (role method url : string) (resp : Response)
          (request_headers : option (dict string))
          (model : option (list Column.t))
          (params params1 : option (list FormParameter.t))
          (query_string : option (dict Py.value)),
      document DOC_HEADER self st role method url resp request_headers model
        params query_string = (st1, params1, Py.Ok tt) ->
      forall (self' : DocumentaryTestApp) (resp' : Response)
             (request_headers' : option (dict string))
             (model' : option (list Column.t))
             (params' : option (list FormParameter.t))
             (query_string' : option (dict Py.value)),
        query_keys query_string' = query_keys query_string ->
        document DOC_HEADER self' st1 role method url resp' request_headers'
          model' params' query_string' = (st1, params', Py.Ok tt))
  /\ (forall (role method url role' method' url' : string)
             (query_string query_string' : option (dict Py.value)),
      RequestSignature.eq
        (RequestSignature.Build role method url (query_keys query_string))
        (RequestSignature.Build role' method' url' (query_keys query_string'))
      <-> role = role' /\ method = method' /\ url = url'
          /\ query_keys query_string = query_keys query_string')
  /\ (forall (self : DocumentaryTestApp) (st st1 : state)
          (role method url : string) (resp : Response)
          (request_headers : option (dict string))
          (model : option (list Column.t))
          (params params1 : option (list FormParameter.t))
          (query_string : option (dict Py.value)),
      RequestSignature.hash
        (RequestSignature.Build role method url (query_keys query_string))
        ∉ _signatures st ->
      document DOC_HEADER self st role method url resp request_headers model
        params query_string = (st1, params1, Py.Ok tt) ->
      exists entity group : string,
        resolve_group method url = Py.Ok (entity, group)
        /\ files st1 !! Py.path_join (destination_dir self) (group +:+ ".md")
           = Some (default ""
                     (files (_ensure_file DOC_HEADER self st
                               (Py.path_join (destination_dir self) (group +:+ ".md"))
                               entity)
                        !! Py.path_join (destination_dir self) (group +:+ ".md"))
                   +:+ (write_entry role method url resp request_headers
                          params1 query_string).1
                   +:+ nl)).
Proof.
  split; [|split; [|split]].
  - intros. by apply document_seen.
  - intros self st st1 role method url resp hdrs model params params1 qs Hdoc
      self' resp' hdrs' model' params' qs' Hkeys.
    apply document_seen. rewrite Hkeys. by eapply document_records.
  - intros. unfold RequestSignature.eq, RequestSignature.hash. simpl.
    split; [by intros [= -> -> -> ->]|by intros (-> & -> & -> & ->)].
  - intros self st st1 role method url resp hdrs model params params1 qs Hnew Hdoc.
    destruct (resolve_group method url) as [[entity group]|e] eqn:Hgroup.
    + destruct (document_unseen self st role method url resp hdrs model params
                  qs entity group Hnew Hgroup) as [seen Hun].
      rewrite Hun in Hdoc. injection Hdoc as <- <- _.
      exists entity, group. split; [done|]. simpl.
      unfold fwrite. by rewrite lookup_insert_eq.
    + unfold document in Hdoc.
      by rewrite bool_decide_eq_false_2, Hgroup in Hdoc.
Qed.

End Dedup.

Lemma dedup_by_signature_witness :
  document sample_header sample_app fresh "admin" "GET" "/widgets"
    sample_response None None None query_ab = (documented_ab, None, Py.Ok tt)
  /\ document sample_header sample_app documented_ab "admin" "GET" "/widgets"
       other_response (Some [("Accept", "*/*")]) (Some [title_column])
       (Some [title_param]) query_ab_other
     = (documented_ab, Some [title_param], Py.Ok tt).
Proof.
  assert (Hfirst : document sample_header sample_app fresh "admin" "GET"
            "/widgets" sample_response None None None query_ab
          = (documented_ab, None, Py.Ok tt)) by (vm_compute; reflexivity).
  split; [exact Hfirst|].
  exact (proj1 (proj2 (dedup_by_signature sample_header))
           sample_app fresh documented_ab "admin" "GET" "/widgets"
           sample_response None None None None query_ab Hfirst
           sample_app other_response (Some [("Accept", "*/*")])
           (Some [title_column]) (Some [title_param]) query_ab_other eq_refl).
Defined.

(** C1 as stated fails on the order of the keys: after [/widgets] was
    documented with the keys a, b, a request that differs only in building
    its query string in the order b, a has the same set of key names, and it
    is documented again: a second entry is appended to the file. *)
Lemma dedup_key_order_counterexample :
  (list_to_set (fst <$> default [] query_ab) : gset string)
    = list_to_set (fst <$> default [] query_ba)
  /\ document sample_header sample_app fresh "admin" "GET" "/widgets"
       sample_response None None None query_ab = (documented_ab, None, Py.Ok tt)
  /\ (exists once : string,
        files documented_ab !! "docs/widgets.md" = Some once
        /\ files (document sample_header sample_app documented_ab "admin" "GET"
                    "/widgets" sample_response None None None query_ba).1.1
             !! "docs/widgets.md"
           = Some (once
                   +:+ (write_entry "admin" "GET" "/widgets" sample_response
                          None None query_ba).1
                   +:+ nl))
  /\ (document sample_header sample_app documented_ab "admin" "GET" "/widgets"
        sample_response None None None query_ba).1.1 <> documented_ab.
Proof.
  split; [by vm_compute|]. split; [by vm_compute|]. split.
  - eexists. split; by vm_compute.
  - intros Heq.
    apply (f_equal (fun s => size (_signatures s))) in Heq.
    vm_compute in Heq. discriminate.
Qed.

(** * Further properties *)

(** ** The recorder: what a call changes *)

Lemma length_append (a b : string) :
  String.length (a +:+ b) = String.length a + String.length b.
Proof.
  induction a as [|c a IH]; [done|].
  change (S (String.length (a +:+ b)) = S (String.length a + String.length b)).
  by rewrite IH.
Qed.

Lemma endswith_snoc (ch : ascii) (a : string) :
  Py.endswith ch (a +:+ String ch "") = true.
Proof.
  induction a as [|c a IH].
  - simpl. by apply bool_decide_eq_true_2.
  - change (Py.endswith ch (String c (a +:+ String ch "")) = true).
    simpl. destruct (a +:+ String ch "") eqn:E; [by destruct a|done].
Qed.

Lemma append_assoc (a b c : string) : (a +:+ b) +:+ c = a +:+ (b +:+ c).
Proof.
  induction a as [|x a IH]; [done|].
  change (String x ((a +:+ b) +:+ c) = String x (a +:+ (b +:+ c))).
  by rewrite IH.
Qed.

Section RecorderEffects.

Variable DOC_HEADER : string -> string.

Lemma ensure_file_signatures (self : DocumentaryTestApp) (st : state)
    (filename entity : string) :
  _signatures (_ensure_file DOC_HEADER self st filename entity) = _signatures st.
Proof. unfold _ensure_file. by case_bool_decide. Qed.

Lemma ensure_file_other (self : DocumentaryTestApp) (st : state)
    (filename entity f : string) :
  f <> filename ->
  files (_ensure_file DOC_HEADER self st filename entity) !! f = files st !! f.
Proof.
  intros Hf. unfold _ensure_file, open_append.
  case_bool_decide; simpl; by rewrite lookup_insert_ne.
Qed.

Lemma ensure_file_open (self : DocumentaryTestApp) (st : state)
    (filename entity content : string) :
  filename ∈ _files st -> files st !! filename = Some content ->
  _ensure_file DOC_HEADER self st filename entity = st.
Proof.
  intros Hin Hc. unfold _ensure_file, open_append.
  rewrite bool_decide_eq_true_2, Hc by done. simpl.
  rewrite insert_id by done. by destruct st.
Qed.

Lemma ensure_file_new (self : DocumentaryTestApp) (st : state)
    (filename entity : string) :
  filename ∉ _files st ->
  _ensure_file DOC_HEADER self st filename entity
  = State (_files st ++ [filename]) (_signatures st)
      (<[filename := DOC_HEADER (version self) +:+ (nl +:+ entity)
                     +:+ (nl +:+ Py.times "-"%char (String.length entity) +:+ nl)]>
         (files st)).
Proof. intros Hin. unfold _ensure_file. by rewrite bool_decide_eq_false_2. Qed.

(** [document] on a signature not yet seen whose URL has a group, in full. *)
Lemma document_unseen_eq (self : DocumentaryTestApp) (st : state)
    (role method url : string) (resp : Response)
    (request_headers : option (dict string)) (model : option (list Column.t))
    (params : option (list FormParameter.t))
    (query_string : option (dict Py.value)) (entity group : string) :
  RequestSignature.hash
    (RequestSignature.Build role method url (query_keys query_string))
    ∉ _signatures st ->
  resolve_group method url = Py.Ok (entity, group) ->
  let filename := Py.path_join (destination_dir self) (group +:+ ".md") in
  let opened := _ensure_file DOC_HEADER self st filename entity in
  let merged :=
    match model with
    | Some columns =>
        if Py.truthy params then merge_params columns <$> params else params
    | None => params
    end in
  let out := write_entry role method url resp request_headers merged query_string in
  document DOC_HEADER self st role method url resp request_headers model
    params query_string
  = (State (_files opened)
       (match out.2 with
        | Py.Ok _ =>
            {[RequestSignature.hash
                (RequestSignature.Build role method url (query_keys query_string))]}
            ∪ _signatures st
        | Py.Raise _ => _signatures st
        end)
       (fwrite filename (out.1 +:+ nl) (files opened)),
     merged, out.2).
Proof.
  intros Hnew Hgroup. unfold document.
  rewrite bool_decide_eq_false_2, Hgroup by done. simpl.
  destruct (write_entry _ _ _ _ _ _ _) as [text r].
  rewrite ensure_file_signatures. by destruct r.
Qed.

(** A call either finds the signature, or fails to group the URL, or goes
    through the file of a group. *)
Lemma document_cases (self : DocumentaryTestApp) (st : state)
    (role method url : string) (resp : Response)
    (request_headers : option (dict string)) (model : option (list Column.t))
    (params : option (list FormParameter.t))
    (query_string : option (dict Py.value)) :
  let sig := RequestSignature.hash
    (RequestSignature.Build role method url (query_keys query_string)) in
  let result := document DOC_HEADER self st role method url resp
    request_headers model params query_string in
  (sig ∈ _signatures st /\ result = (st, params, Py.Ok tt))
  \/ ((sig ∉ _signatures st) /\ exists e,
        resolve_group method url = Py.Raise e /\ result = (st, params, Py.Raise e))
  \/ ((sig ∉ _signatures st) /\ exists entity group,
        resolve_group method url = Py.Ok (entity, group)).
Proof.
  simpl. destruct (decide (RequestSignature.hash
    (RequestSignature.Build role method url (query_keys query_string))
    ∈ _signatures st)) as [Hin|Hnew].
  - left. split; [done|]. by apply document_seen.
  - right. destruct (resolve_group method url) as [[entity group]|e] eqn:Hg.
    + right. split; [done|]. by exists entity, group.
    + left. split; [done|]. exists e. split; [done|].
      unfold document. by rewrite bool_decide_eq_false_2, Hg.
Qed.

(** What the recorder holds is never taken away: a call removes no
    signature from the set, no name from the list of opened files and no
    file. *)
Theorem document_never_forgets (self : DocumentaryTestApp) (st : state)
    (role method url : string) (resp : Response)
    (request_headers : option (dict string)) (model : option (list Column.t))
    (params : option (list FormParameter.t))
    (query_string : option (dict Py.value)) :
  _signatures st
    ⊆ _signatures (document DOC_HEADER self st role method url resp
                     request_headers model params query_string).1.1
  /\ _files st
     `prefix_of` _files (document DOC_HEADER self st role method url resp
                           request_headers model params query_string).1.1
  /\ (forall f : string,
        is_Some (files st !! f) ->
        is_Some (files (document DOC_HEADER self st role method url resp
                          request_headers model params query_string).1.1 !! f)).
Proof.
  destruct (document_cases self st role method url resp request_headers model
              params query_string) as [[_ ->]|[(_ & e & _ & ->)|(Hnew & entity & group & Hg)]];
    [done|done|].
  rewrite (document_unseen_eq _ _ _ _ _ _ _ _ _ _ _ _ Hnew Hg). simpl.
  split; [|split].
  - destruct (write_entry _ _ _ _ _ _ _).2; set_solver.
  - unfold _ensure_file. case_bool_decide; simpl; [done|]. by apply prefix_app_r.
  - intros f Hf. unfold fwrite.
    destruct (decide (f = Py.path_join (destination_dir self) (group +:+ ".md")))
      as [->|Hne].
    + by rewrite lookup_insert_eq.
    + rewrite lookup_insert_ne by done. by rewrite ensure_file_other.
Qed.

(** A call writes to no file but the one of the group of its URL. *)
Theorem document_touches_one_file (self : DocumentaryTestApp) (st : state)
    (role method url : string) (resp : Response)
    (request_headers : option (dict string)) (model : option (list Column.t))
    (params : option (list FormParameter.t))
    (query_string : option (dict Py.value)) (f : string) :
  (forall entity group : string,
      resolve_group method url = Py.Ok (entity, group) ->
      f <> Py.path_join (destination_dir self) (group +:+ ".md")) ->
  files (document DOC_HEADER self st role method url resp request_headers
           model params query_string).1.1 !! f
  = files st !! f.
Proof.
  intros Hf.
  destruct (document_cases self st role method url resp request_headers model
              params query_string) as [[_ ->]|[(_ & e & _ & ->)|(Hnew & entity & group & Hg)]];
    [done|done|].
  rewrite (document_unseen_eq _ _ _ _ _ _ _ _ _ _ _ _ Hnew Hg). simpl.
  unfold fwrite. specialize (Hf entity group Hg).
  rewrite lookup_insert_ne by done. by apply ensure_file_other.
Qed.

(** A call that opens the file of its group leaves the header block and
    one entry in it, whatever the file held, and registers the file. *)
Lemma document_creates (self : DocumentaryTestApp) (st : state)
    (role method url : string) (resp : Response)
    (request_headers : option (dict string)) (model : option (list Column.t))
    (params : option (list FormParameter.t))
    (query_string : option (dict Py.value)) (entity group : string) :
  RequestSignature.hash
    (RequestSignature.Build role method url (query_keys query_string))
    ∉ _signatures st ->
  resolve_group method url = Py.Ok (entity, group) ->
  Py.path_join (destination_dir self) (group +:+ ".md") ∉ _files st ->
  let result := document DOC_HEADER self st role method url resp
                  request_headers model params query_string in
  files result.1.1 !! Py.path_join (destination_dir self) (group +:+ ".md")
  = Some ((DOC_HEADER (version self) +:+ (nl +:+ entity)
           +:+ (nl +:+ Py.times "-"%char (String.length entity) +:+ nl))
          +:+ (write_entry role method url resp request_headers result.1.2
                 query_string).1
          +:+ nl)
  /\ _files result.1.1
     = (_files st ++ [Py.path_join (destination_dir self) (group +:+ ".md")])%list.
Proof.
  intros Hnew Hg Hfile.
  rewrite (document_unseen_eq _ _ _ _ _ _ _ _ _ _ _ _ Hnew Hg). simpl.
  rewrite (ensure_file_new self st _ entity Hfile). simpl.
  split; [|done]. unfold fwrite. by rewrite !lookup_insert_eq.
Qed.

(** A call whose group has its file open appends one entry to what the
    file holds. *)
Lemma document_appends (self : DocumentaryTestApp) (st : state)
    (role method url : string) (resp : Response)
    (request_headers : option (dict string)) (model : option (list Column.t))
    (params : option (list FormParameter.t))
    (query_string : option (dict Py.value)) (entity group content : string) :
  RequestSignature.hash
    (RequestSignature.Build role method url (query_keys query_string))
    ∉ _signatures st ->
  resolve_group method url = Py.Ok (entity, group) ->
  Py.path_join (destination_dir self) (group +:+ ".md") ∈ _files st ->
  files st !! Py.path_join (destination_dir self) (group +:+ ".md") = Some content ->
  let result := document DOC_HEADER self st role method url resp
                  request_headers model params query_string in
  files result.1.1 !! Py.path_join (destination_dir self) (group +:+ ".md")
  = Some (content
          +:+ (write_entry role method url resp request_headers result.1.2
                 query_string).1
          +:+ nl)
  /\ _files result.1.1 = _files st.
Proof.
  intros Hnew Hg Hfile Hc.
  rewrite (document_unseen_eq _ _ _ _ _ _ _ _ _ _ _ _ Hnew Hg). simpl.
  rewrite (ensure_file_open self st _ entity content Hfile Hc).
  split; [|done]. unfold fwrite. by rewrite lookup_insert_eq, Hc.
Qed.

(** One header per group: when a call opens the file of a group and a later
    call, of another signature, lands in the same group, the file holds the
    header block of the first call once, then the two entries. *)
Theorem header_written_once (self : DocumentaryTestApp) (st st1 : state)
    (role1 method1 url1 role2 method2 url2 : string) (resp1 resp2 : Response)
    (headers1 headers2 : option (dict string))
    (model1 model2 : option (list Column.t))
    (params1 params1' params2 : option (list FormParameter.t))
    (query1 query2 : option (dict Py.value))
    (entity1 entity2 group : string) (r1 : Py.result unit) :
  RequestSignature.hash
    (RequestSignature.Build role1 method1 url1 (query_keys query1))
    ∉ _signatures st ->
  resolve_group method1 url1 = Py.Ok (entity1, group) ->
  resolve_group method2 url2 = Py.Ok (entity2, group) ->
  Py.path_join (destination_dir self) (group +:+ ".md") ∉ _files st ->
  document DOC_HEADER self st role1 method1 url1 resp1 headers1 model1
    params1 query1 = (st1, params1', r1) ->
  RequestSignature.hash
    (RequestSignature.Build role2 method2 url2 (query_keys query2))
    ∉ _signatures st1 ->
  files (document DOC_HEADER self st1 role2 method2 url2 resp2 headers2 model2
           params2 query2).1.1
    !! Py.path_join (destination_dir self) (group +:+ ".md")
  = Some (((DOC_HEADER (version self) +:+ (nl +:+ entity1)
            +:+ (nl +:+ Py.times "-"%char (String.length entity1) +:+ nl))
           +:+ (write_entry role1 method1 url1 resp1 headers1 params1' query1).1
           +:+ nl)
          +:+ (write_entry role2 method2 url2 resp2 headers2
                 (document DOC_HEADER self st1 role2 method2 url2 resp2 headers2
                    model2 params2 query2).1.2 query2).1
          +:+ nl).
Proof.
  intros Hnew1 Hg1 Hg2 Hfile Hdoc1 Hnew2.
  destruct (document_creates self st role1 method1 url1 resp1 headers1 model1
              params1 query1 entity1 group Hnew1 Hg1 Hfile) as [Hc Hf].
  rewrite Hdoc1 in Hc, Hf. simpl in Hc, Hf.
  apply (document_appends self st1 role2 method2 url2 resp2 headers2 model2
           params2 query2 entity2 group _ Hnew2 Hg2); [|exact Hc].
  rewrite Hf. set_solver.
Qed.

(** The converse of deduplication: a call whose signature is not in the
    set and whose URL has a group is never a no-op. *)
Theorem document_unseen_changes (self : DocumentaryTestApp) (st : state)
    (role method url : string) (resp : Response)
    (request_headers : option (dict string)) (model : option (list Column.t))
    (params : option (list FormParameter.t))
    (query_string : option (dict Py.value)) (entity group : string) :
  RequestSignature.hash
    (RequestSignature.Build role method url (query_keys query_string))
    ∉ _signatures st ->
  resolve_group method url = Py.Ok (entity, group) ->
  (document DOC_HEADER self st role method url resp request_headers model
     params query_string).1.1 <> st.
Proof.
  intros Hnew Hg.
  rewrite (document_unseen_eq _ _ _ _ _ _ _ _ _ _ _ _ Hnew Hg). simpl.
  set (filename := Py.path_join (destination_dir self) (group +:+ ".md")).
  set (out := write_entry _ _ _ _ _ _ _).
  intros Heq.
  destruct (decide (filename ∈ _files st)) as [Hin|Hout].
  - apply (f_equal (fun s => files s !! filename)) in Heq. simpl in Heq.
    unfold fwrite, _ensure_file, open_append in Heq.
    rewrite bool_decide_eq_true_2 in Heq by done. simpl in Heq.
    rewrite !lookup_insert_eq in Heq. simpl in Heq.
    destruct (files st !! filename) as [c|]; [|done]. simpl in Heq.
    injection Heq as Heq.
    apply (f_equal String.length) in Heq.
    rewrite !length_append in Heq. simpl in Heq. lia.
  - apply (f_equal (fun s => length (_files s))) in Heq. simpl in Heq.
    rewrite (ensure_file_new self st filename entity Hout) in Heq. simpl in Heq.
    rewrite length_app in Heq. simpl in Heq. lia.
Qed.

(** Whatever happens inside [try], the file of the group ends with a line
    feed when the call is over. *)
Theorem document_closes_entry (self : DocumentaryTestApp) (st : state)
    (role method url : string) (resp : Response)
    (request_headers : option (dict string)) (model : option (list Column.t))
    (params : option (list FormParameter.t))
    (query_string : option (dict Py.value)) (entity group : string) :
  RequestSignature.hash
    (RequestSignature.Build role method url (query_keys query_string))
    ∉ _signatures st ->
  resolve_group method url = Py.Ok (entity, group) ->
  exists content : string,
    files (document DOC_HEADER self st role method url resp request_headers
             model params query_string).1.1
      !! Py.path_join (destination_dir self) (group +:+ ".md") = Some content
    /\ Py.endswith "010"%char content = true
    /\ Py.path_join (destination_dir self) (group +:+ ".md")
       ∈ _files (document DOC_HEADER self st role method url resp
                   request_headers model params query_string).1.1.
Proof.
  intros Hnew Hg.
  rewrite (document_unseen_eq _ _ _ _ _ _ _ _ _ _ _ _ Hnew Hg). simpl.
  eexists. split; [unfold fwrite; by rewrite lookup_insert_eq|]. split.
  - rewrite <- append_assoc. apply endswith_snoc.
  - unfold _ensure_file. case_bool_decide; simpl; [done|]. set_solver.
Qed.

(** A documentation that raised is not remembered: the set of signatures
    is what it was and does not hold the signature of the call, so the same
    request is written again the next time. *)
Theorem document_failure_not_recorded (self : DocumentaryTestApp)
    (st st' : state) (role method url : string) (resp : Response)
    (request_headers : option (dict string)) (model : option (list Column.t))
    (params params' : option (list FormParameter.t))
    (query_string : option (dict Py.value)) (e : Py.exn) :
  document DOC_HEADER self st role method url resp request_headers model
    params query_string = (st', params', Py.Raise e) ->
  _signatures st' = _signatures st
  /\ RequestSignature.hash
       (RequestSignature.Build role method url (query_keys query_string))
       ∉ _signatures st'.
Proof.
  intros Hdoc.
  destruct (document_cases self st role method url resp request_headers model
              params query_string) as [[_ Hr]|[(Hnew & e' & _ & Hr)|(Hnew & entity & group & Hg)]].
  - by rewrite Hr in Hdoc.
  - rewrite Hr in Hdoc. by injection Hdoc as <- _ _.
  - rewrite (document_unseen_eq _ _ _ _ _ _ _ _ _ _ _ _ Hnew Hg) in Hdoc.
    injection Hdoc as <- _ Hr. simpl. by rewrite Hr.
Qed.

End RecorderEffects.

(** ** The recorder: when a call raises *)

Lemma split_occurs (sep : ascii) (s : string) :
  Py.occurs sep s = true ->
  exists x y ys, Py.split sep s = x :: y :: ys.
Proof.
  induction s as [|c s IH]; simpl; [done|].
  case_decide as Hc.
  - intros _. destruct (Py.split sep s) as [|y ys] eqn:E.
    + by destruct (split_not_nil sep s).
    + by eexists _, _, _.
  - intros Hs. destruct (IH Hs) as (x & y & ys & ->). by eexists _, _, _.
Qed.

Lemma resolve_group_raises (method url : string) :
  (exists e, resolve_group method url = Py.Raise e)
  <-> Py.occurs "/" (hd "" (Py.split "?" url)) = false.
Proof.
  unfold resolve_group, path_parts. split.
  - intros [e He].
    destruct (Py.occurs "/" (hd "" (Py.split "?" url))) eqn:Ho; [|done].
    destruct (split_occurs _ _ Ho) as (x & y & ys & Hs).
    rewrite Hs in He. simpl in He. by destruct ys.
  - intros Ho. rewrite (split_absent _ _ Ho). simpl. by eexists.
Qed.

(** The grouping fails exactly on a URL whose path, the part before the
    first question mark, has no slash; the method plays no part in it. *)
Theorem resolve_group_raises_iff (method url : string) :
  (exists e, resolve_group method url = Py.Raise e)
  <-> Py.occurs "/" (hd "" (Py.split "?" url)) = false.
Proof. apply resolve_group_raises. Qed.

Lemma value_string_unprintable (param : FormParameter.t) :
  FormParameter.value_string param
  = if unprintable param
    then Py.Raise (Py.TypeError "expected str, bytes or os.PathLike object")
    else FormParameter.value_string param.
Proof.
  unfold unprintable, FormParameter.value_string.
  destruct (FormParameter.value param); case_bool_decide; done.
Qed.

Lemma value_string_printable (param : FormParameter.t) :
  unprintable param = false ->
  exists v, FormParameter.value_string param = Py.Ok v.
Proof.
  unfold unprintable, FormParameter.value_string.
  destruct (FormParameter.value param); repeat case_bool_decide;
    simpl; intros; try done; by eexists.
Qed.

Lemma wbind_snd {A B} (m : writer A) (k : A -> writer B) :
  (m ≫= k).2
  = match m.2 with
    | Py.Ok a => (k a).2
    | Py.Raise e => Py.Raise e
    end.
Proof.
  unfold mbind, writer_bind, wbind. destruct m as [t [a|e]]; simpl; [|done].
  by destruct (k a).
Qed.

Lemma write_snd (s : string) : (write s).2 = Py.Ok tt.
Proof. done. Qed.

Lemma for_each_ok {A} (l : list A) (body : A -> writer unit) :
  (forall x, (body x).2 = Py.Ok tt) -> (for_each l body).2 = Py.Ok tt.
Proof.
  intros Hb. induction l as [|x l IH]; [done|].
  simpl. rewrite wbind_snd. by rewrite Hb.
Qed.

Lemma write_param_snd (method : string) (param : FormParameter.t) :
  (write_param method param).2
  = if unprintable param
    then Py.Raise (Py.TypeError "expected str, bytes or os.PathLike object")
    else Py.Ok tt.
Proof.
  unfold write_param. rewrite wbind_snd. unfold eval. simpl.
  destruct (unprintable param) eqn:Hu.
  - rewrite value_string_unprintable, Hu. done.
  - by destruct (value_string_printable _ Hu) as [v ->].
Qed.

Lemma for_each_params_snd (method : string) (params : list FormParameter.t) :
  (for_each params (write_param method)).2
  = if existsb unprintable params
    then Py.Raise (Py.TypeError "expected str, bytes or os.PathLike object")
    else Py.Ok tt.
Proof.
  induction params as [|p ps IH]; [done|].
  simpl. rewrite wbind_snd, write_param_snd.
  by destruct (unprintable p).
Qed.

(** The only thing that can raise while an entry is written is the example
    of a parameter. *)
Lemma write_entry_snd (role method url : string) (resp : Response)
    (request_headers : option (dict string))
    (params : option (list FormParameter.t))
    (query_string : option (dict Py.value)) :
  (write_entry role method url resp request_headers params query_string).2
  = if existsb unprintable (default [] params)
    then Py.Raise (Py.TypeError "expected str, bytes or os.PathLike object")
    else Py.Ok tt.
Proof.
  unfold write_entry. rewrite wbind_snd, write_snd.
  rewrite wbind_snd.
  assert (Hp : (when (Py.truthy params)
                  (write (nl +:+ "    - Form Parameters:" +:+ nl +:+ nl);;
                   write ("        | Parameter | Optional | Type | Default | Example |" +:+ nl);;
                   write ("        | --------- | -------- | ---- | ------- | ------- |" +:+ nl);;
                   for_each (default [] params) (write_param method))).2
               = if existsb unprintable (default [] params)
                 then Py.Raise (Py.TypeError "expected str, bytes or os.PathLike object")
                 else Py.Ok tt).
  { destruct params as [[|p ps]|]; try done.
    unfold when, Py.truthy. rewrite !wbind_snd, !write_snd.
    exact (for_each_params_snd method (p :: ps)). }
  rewrite Hp. destruct (existsb unprintable (default [] params)); [done|].
  rewrite wbind_snd.
  assert (Hq : (when (Py.truthy query_string)
                  (write (nl +:+ "    - Query String:" +:+ nl +:+ nl);;
                   write ("        | Parameter | Example |" +:+ nl);;
                   write ("        | --------- | ------- |" +:+ nl);;
                   for_each (default [] query_string) (fun '(name, value) =>
                     write ("        | " +:+ name +:+ " | " +:+ Py.str value +:+ " |" +:+ nl)))).2
               = Py.Ok tt).
  { unfold when. destruct (Py.truthy query_string); [|done].
    rewrite !wbind_snd, !write_snd. apply for_each_ok. by intros []. }
  rewrite Hq. rewrite wbind_snd.
  assert (Hh : (when (Py.truthy request_headers)
                  (write (nl +:+ "    - Request Headers:" +:+ nl +:+ nl);;
                   for_each (default [] request_headers) (fun '(k, v) =>
                     write (indent +:+ k +:+ ": " +:+ v +:+ nl)))).2
               = Py.Ok tt).
  { unfold when. destruct (Py.truthy request_headers); [|done].
    rewrite !wbind_snd, !write_snd. apply for_each_ok. by intros []. }
  rewrite Hh. rewrite !wbind_snd, !write_snd.
  rewrite for_each_ok by (by intros []). cbv beta iota.
  by rewrite for_each_ok.
Qed.

Lemma backfill_unprintable (c : Column.t) (p : FormParameter.t) :
  unprintable (backfill c p) = unprintable p.
Proof.
  unfold unprintable, backfill, resolve_type. simpl.
  destruct (FormParameter.type_ p) as [ty|]; [done|].
  destruct (Column.attachment c), (Column.unreadable c); done.
Qed.

Lemma existsb_alter {A} (f : A -> bool) (g : A -> A) (i : nat) (l : list A) :
  (forall x, f (g x) = f x) -> existsb f (alter g i l) = existsb f l.
Proof.
  intros Hg. unfold alter. revert i.
  induction l as [|x l IH]; intros i; [done|].
  destruct i as [|i]; simpl; [by rewrite Hg|by rewrite IH].
Qed.

Lemma merge_column_unprintable (c : Column.t) (ps : list FormParameter.t) :
  existsb unprintable (merge_column ps c) = existsb unprintable ps.
Proof.
  unfold merge_column. destruct (index (Column.json c) ps) as [i|].
  - apply existsb_alter, backfill_unprintable.
  - rewrite existsb_app. simpl.
    assert (unprintable (synthesize c) = false) as ->
      by (unfold unprintable; simpl; apply andb_false_r).
    by rewrite !orb_false_r.
Qed.

Lemma merge_params_unprintable (cs : list Column.t) (ps : list FormParameter.t) :
  existsb unprintable (merge_params cs ps) = existsb unprintable ps.
Proof.
  unfold merge_params. revert ps.
  induction cs as [|c cs IH]; intros ps; [done|].
  simpl. by rewrite IH, merge_column_unprintable.
Qed.

Section RecorderFailures.

Variable DOC_HEADER : string -> string.

(** A URL whose path has no slash cannot be grouped: the call raises the
    error of the failed unpacking before it opens any file, and nothing has
    changed. *)
Theorem document_no_slash (self : DocumentaryTestApp) (st : state)
    (role method url : string) (resp : Response)
    (request_headers : option (dict string)) (model : option (list Column.t))
    (params : option (list FormParameter.t))
    (query_string : option (dict Py.value)) :
  RequestSignature.hash
    (RequestSignature.Build role method url (query_keys query_string))
    ∉ _signatures st ->
  Py.occurs "/" (hd "" (Py.split "?" url)) = false ->
  document DOC_HEADER self st role method url resp request_headers model
    params query_string
  = (st, params,
     Py.Raise (Py.ValueError "not enough values to unpack (expected 2, got 0)")).
Proof.
  intros Hnew Hpath. unfold document.
  rewrite bool_decide_eq_false_2 by done.
  unfold resolve_group, path_parts. by rewrite (split_absent _ _ Hpath).
Qed.

(** When a call raises: exactly when the signature is not in the set and
    either the path of the URL has no slash or the caller's parameters hold
    an upload whose value is neither None nor a string. *)
Theorem document_raises_iff (self : DocumentaryTestApp) (st : state)
    (role method url : string) (resp : Response)
    (request_headers : option (dict string)) (model : option (list Column.t))
    (params : option (list FormParameter.t))
    (query_string : option (dict Py.value)) :
  (exists e, (document DOC_HEADER self st role method url resp request_headers
                model params query_string).2 = Py.Raise e)
  <-> (RequestSignature.hash
         (RequestSignature.Build role method url (query_keys query_string))
         ∉ _signatures st)
      /\ (Py.occurs "/" (hd "" (Py.split "?" url)) = false
          \/ existsb unprintable (default [] params) = true).
Proof.
  pose proof (resolve_group_raises method url) as Hgroup.
  destruct (document_cases DOC_HEADER self st role method url resp
              request_headers model params query_string)
    as [[Hin ->]|[(Hnew & e & Hg & ->)|(Hnew & entity & group & Hg)]].
  - split; [by intros [e He]|by intros [Hnew _]].
  - split; [|by exists e]. intros _. split; [done|]. left.
    apply Hgroup. by exists e.
  - rewrite (document_unseen_eq _ _ _ _ _ _ _ _ _ _ _ _ _ Hnew Hg). simpl.
    rewrite write_entry_snd.
    assert (Hm : existsb unprintable
                   (default [] match model with
                               | Some columns =>
                                   if Py.truthy params
                                   then merge_params columns <$> params
                                   else params
                               | None => params
                               end)
                 = existsb unprintable (default [] params)).
    { destruct model as [columns|]; [|done].
      destruct params as [[|p ps]|]; try done.
      simpl. apply (merge_params_unprintable columns (p :: ps)). }
    rewrite Hm.
    assert (Hslash : Py.occurs "/" (hd "" (Py.split "?" url)) = true).
    { destruct (Py.occurs "/" (hd "" (Py.split "?" url))); [done|].
      destruct (proj2 Hgroup eq_refl) as [e He]. by rewrite Hg in He. }
    rewrite Hslash.
    destruct (existsb unprintable (default [] params)).
    + split; [|by eexists]. intros _. split; [done|]. by right.
    + split; [by intros [e He]|by intros [_ [?|?]]].
Qed.

End RecorderFailures.

(** ** The table of form parameters *)

(** The Optional column of a PUT request does not show the optionality of
    the parameters: two lists that differ in nothing but [optional] give the
    same entry. *)
Theorem put_hides_optional (role method url : string) (resp : Response)
    (request_headers : option (dict string))
    (params params' : list FormParameter.t)
    (query_string : option (dict Py.value)) :
  Py.lower method = "put" ->
  Forall2 (fun p q =>
             FormParameter.name p = FormParameter.name q
             /\ FormParameter.value p = FormParameter.value q
             /\ FormParameter.type_ p = FormParameter.type_ q
             /\ FormParameter.default p = FormParameter.default q)
          params params' ->
  write_entry role method url resp request_headers (Some params) query_string
  = write_entry role method url resp request_headers (Some params') query_string.
Proof.
  intros Hput Hsame. unfold write_entry.
  assert (Hrows : for_each params (write_param method)
                  = for_each params' (write_param method)).
  { induction Hsame as [|p q ps qs (Hn & Hv & Ht & Hd) _ IH]; [done|].
    simpl. rewrite IH. f_equal.
    unfold write_param, FormParameter.value_string, FormParameter.type_string.
    rewrite Hput, Hn, Hv, Ht, Hd. done. }
  assert (Htruthy : Py.truthy (Some params) = Py.truthy (Some params')).
  { by destruct Hsame. }
  simpl default. by rewrite Hrows, Htruthy.
Qed.

(** ** The parameter merger: the list as a whole *)

Lemma index_None (n : string) (ps : list FormParameter.t) :
  index n ps = None <-> n ∉ FormParameter.name <$> ps.
Proof.
  induction ps as [|p ps IH]; simpl.
  - split; [intros _; apply not_elem_of_nil|done].
  - rewrite not_elem_of_cons. unfold FormParameter.hash.
    case_bool_decide as Hp.
    + split; [done|]. by intros [Hne _].
    + destruct (index n ps) as [j|]; simpl.
      * split; [done|]. intros [_ Hn]. by apply IH in Hn.
      * split; [|done]. intros _. split; [by intros ->|by apply IH].
Qed.

Lemma names_alter (c : Column.t) (i : nat) (ps : list FormParameter.t) :
  FormParameter.name <$> alter (backfill c) i ps = FormParameter.name <$> ps.
Proof.
  unfold alter. revert i. induction ps as [|p ps IH]; intros i; [done|].
  destruct i as [|i]; simpl; [done|]. by rewrite IH.
Qed.

Lemma names_merge_column (c : Column.t) (ps : list FormParameter.t) :
  FormParameter.name <$> merge_column ps c
  = ((FormParameter.name <$> ps)
     ++ match index (Column.json c) ps with
        | Some _ => []
        | None => [Column.json c]
        end)%list.
Proof.
  unfold merge_column. destruct (index (Column.json c) ps) as [i|].
  - by rewrite names_alter, app_nil_r.
  - by rewrite fmap_app.
Qed.

Lemma merge_params_snoc (cs : list Column.t) (c : Column.t)
    (ps : list FormParameter.t) :
  merge_params (cs ++ [c]) ps = merge_column (merge_params cs ps) c.
Proof. unfold merge_params. by rewrite foldl_snoc. Qed.

Lemma merge_column_length (c : Column.t) (ps : list FormParameter.t) :
  is_Some (index (Column.json c) ps) ->
  length (merge_column ps c) = length ps.
Proof.
  intros [i Hi]. unfold merge_column. rewrite Hi. apply length_alter.
Qed.

(** No name twice in the caller's list, no name twice after the merge: a
    column is represented once. *)
Theorem merge_keeps_names_distinct (columns : list Column.t)
    (params : list FormParameter.t) :
  NoDup (FormParameter.name <$> params) ->
  NoDup (FormParameter.name <$> merge_params columns params).
Proof.
  unfold merge_params. revert params.
  induction columns as [|c cs IH]; intros ps Hps; [done|].
  simpl. apply IH. rewrite names_merge_column.
  destruct (index (Column.json c) ps) as [i|] eqn:Hi.
  - by rewrite app_nil_r.
  - apply NoDup_app. split; [done|]. split; [|apply NoDup_singleton].
    intros n Hn Hc. apply list_elem_of_singleton in Hc as ->.
    by apply index_None in Hi.
Qed.

Lemma index_app_None (n : string) (ps qs : list FormParameter.t) :
  index n ps = None ->
  index n (ps ++ qs) = (fun j => length ps + j) <$> index n qs.
Proof.
  induction ps as [|p ps IH]; simpl.
  - intros _. by destruct (index n qs).
  - case_bool_decide; [done|].
    destruct (index n ps) as [j|]; [done|]. intros _.
    rewrite IH by done. by destruct (index n qs).
Qed.

Lemma named_snoc (n : string) (cs : list Column.t) (c : Column.t) :
  named n (cs ++ [c])
  = (named n cs ++ if bool_decide (Column.json c = n) then [c] else [])%list.
Proof.
  unfold named. rewrite filter_app. f_equal.
  rewrite filter_cons, filter_nil. by case_bool_decide; case_decide.
Qed.

Lemma backfill_settles (c : Column.t) (p : FormParameter.t) :
  is_Some (FormParameter.type_ (backfill c p))
  /\ is_Some (FormParameter.optional (backfill c p)).
Proof.
  unfold backfill. simpl.
  destruct (FormParameter.type_ p), (FormParameter.optional p); by split.
Qed.

Lemma settled_step (cs : list Column.t) (c : Column.t)
    (ms : list FormParameter.t) :
  settled cs ms -> settled (cs ++ [c]) (merge_column ms c).
Proof.
  intros Hs c' Hc'.
  destruct (decide (Column.json c' = Column.json c)) as [Heq|Hne].
  - rewrite Heq, named_snoc, bool_decide_eq_true_2, last_snoc by done.
    destruct (index (Column.json c) ms) as [i|] eqn:Hi.
    + destruct (index_lookup _ _ _ Hi) as (p & Hp & Hn).
      exists i, (backfill c p), c.
      split; [by apply index_merge_column|].
      split; [by rewrite (merge_column_lookup c ms i p Hp), bool_decide_eq_true_2|].
      destruct (backfill_settles c p). done.
    + exists (length ms), (synthesize c), c.
      unfold merge_column. rewrite Hi.
      split.
      { rewrite index_app_None by done. simpl. unfold FormParameter.hash. simpl.
        rewrite bool_decide_eq_true_2 by done. simpl. f_equal. lia. }
      split; [by rewrite list_lookup_middle|].
      simpl. done.
  - assert (Hin : c' ∈ cs).
    { apply elem_of_app in Hc' as [?|Hc']; [done|].
      apply list_elem_of_singleton in Hc'. by subst. }
    destruct (Hs c' Hin) as (i & p & latest & Hi & Hp & Ht & Ho & Hl & Hd).
    exists i, p, latest.
    split; [by apply index_merge_column|].
    split.
    { rewrite (merge_column_lookup c ms i p Hp).
      rewrite bool_decide_eq_false_2; [done|].
      intros Hc. destruct (index_lookup _ _ _ Hc) as (q & Hq & Hqn).
      destruct (index_lookup _ _ _ Hi) as (q' & Hq' & Hqn').
      congruence. }
    rewrite named_snoc, bool_decide_eq_false_2, app_nil_r by done.
    done.
Qed.

Lemma settled_merge (cs : list Column.t) (ps : list FormParameter.t) :
  settled cs (merge_params cs ps).
Proof.
  induction cs as [|c cs IH] using rev_ind.
  - intros c Hc. by apply elem_of_nil in Hc.
  - rewrite merge_params_snoc. by apply settled_step.
Qed.

(** Every column is represented after the merge: the first parameter of its
    wire name has a type and an optionality, and the default resolved from
    the last column of that name. *)
Theorem merge_represents_columns (columns : list Column.t)
    (params : list FormParameter.t) (c : Column.t) :
  c ∈ columns ->
  exists (i : nat) (p : FormParameter.t) (latest : Column.t),
    index (Column.json c) (merge_params columns params) = Some i
    /\ merge_params columns params !! i = Some p
    /\ FormParameter.name p = Column.json c
    /\ is_Some (FormParameter.type_ p)
    /\ is_Some (FormParameter.optional p)
    /\ last (named (Column.json c) columns) = Some latest
    /\ FormParameter.default p = resolve_default latest.
Proof.
  intros Hc.
  destruct (settled_merge columns params c Hc)
    as (i & p & latest & Hi & Hp & Ht & Ho & Hl & Hd).
  exists i, p, latest. repeat (split; [done|]).
  split; [|done].
  destruct (index_lookup _ _ _ Hi) as (q & Hq & Hn). congruence.
Qed.

Lemma param_ext (p q : FormParameter.t) :
  FormParameter.name p = FormParameter.name q ->
  FormParameter.value p = FormParameter.value q ->
  FormParameter.type_ p = FormParameter.type_ q ->
  FormParameter.optional p = FormParameter.optional q ->
  FormParameter.default p = FormParameter.default q ->
  p = q.
Proof. destruct p, q. simpl. by intros -> -> -> -> ->. Qed.

Lemma merge_params_length (cs : list Column.t) :
  forall ms : list FormParameter.t,
  (forall c, c ∈ cs -> is_Some (index (Column.json c) ms)) ->
  length (merge_params cs ms) = length ms.
Proof.
  unfold merge_params.
  induction cs as [|c cs IH]; intros ms Hall; [done|].
  simpl. rewrite IH.
  - apply merge_column_length, Hall. set_solver.
  - intros c' Hc'. destruct (Hall c') as [j Hj]; [set_solver|].
    exists j. by apply index_merge_column.
Qed.

Lemma settled_fixed (cs : list Column.t) (ms : list FormParameter.t) :
  settled cs ms -> merge_params cs ms = ms.
Proof.
  intros Hs. apply list_eq. intros i.
  destruct (ms !! i) as [p|] eqn:Hp.
  - rewrite (merge_params_lookup cs ms i p Hp). f_equal.
    case_bool_decide as Hfirst; [|done].
    destruct (named (FormParameter.name p) cs) as [|c0 cs0] eqn:Hnamed; [done|].
    assert (Hc0 : c0 ∈ cs /\ Column.json c0 = FormParameter.name p).
    { assert (Hin : c0 ∈ named (FormParameter.name p) cs)
        by (rewrite Hnamed; set_solver).
      unfold named in Hin. apply list_elem_of_filter in Hin. tauto. }
    destruct Hc0 as [Hin Hjson].
    destruct (Hs c0 Hin) as (i' & p' & latest & Hi & Hp' & Ht & Ho & Hl & Hd).
    rewrite Hjson in Hi, Hl. rewrite Hnamed in Hl.
    assert (i' = i) as -> by congruence.
    assert (p' = p) as -> by congruence.
    apply param_ext.
    + apply backfill_all_name.
    + apply backfill_all_value.
    + rewrite backfill_all_type. by destruct Ht as [ty ->].
    + rewrite backfill_all_optional. by destruct Ho as [o ->].
    + rewrite backfill_all_default, Hl. by simpl.
  - apply lookup_ge_None. apply lookup_ge_None in Hp.
    rewrite merge_params_length; [done|].
    intros c Hc. destruct (Hs c Hc) as (j & _ & _ & Hj & _). by exists j.
Qed.

(** Merging twice is merging once: a second run over the same columns
    finds every parameter in place and changes nothing. *)
Theorem merge_idempotent (columns : list Column.t)
    (params : list FormParameter.t) :
  merge_params columns (merge_params columns params)
  = merge_params columns params.
Proof. apply settled_fixed, settled_merge. Qed.

(** The caller's parameters come first, in their order; what follows them
    was synthesized: it has no example value and is named after a column
    whose wire name the caller's list does not hold. *)
Theorem merge_keeps_order (columns : list Column.t)
    (params : list FormParameter.t) :
  (FormParameter.name <$> params)
    `prefix_of` (FormParameter.name <$> merge_params columns params)
  /\ (forall (i : nat) (q : FormParameter.t),
        length params <= i ->
        merge_params columns params !! i = Some q ->
        FormParameter.value q = Py.VNone
        /\ (FormParameter.name q ∉ FormParameter.name <$> params)
        /\ exists c, c ∈ columns /\ Column.json c = FormParameter.name q).
Proof.
  induction columns as [|c cs [IHp IHs]] using rev_ind.
  - split; [done|]. intros i q Hi Hq. apply lookup_lt_Some in Hq.
    unfold merge_params in Hq. simpl in Hq. lia.
  - rewrite merge_params_snoc. set (ms := merge_params cs params) in *.
    split.
    { rewrite names_merge_column. by apply prefix_app_r. }
    intros i q Hi Hq.
    destruct (ms !! i) as [q0|] eqn:Hq0.
    + rewrite (merge_column_lookup c ms i q0 Hq0) in Hq.
      destruct (IHs i q0 Hi Hq0) as (Hv & Hn & c0 & Hc0 & Hj).
      assert (Hsame : FormParameter.value q = FormParameter.value q0
                      /\ FormParameter.name q = FormParameter.name q0).
      { injection Hq as <-. by case_bool_decide. }
      destruct Hsame as [-> ->].
      split; [done|]. split; [done|]. exists c0.
      split; [apply elem_of_app; by left|done].
    + unfold merge_column in Hq.
      destruct (index (Column.json c) ms) as [k|] eqn:Hk.
      * apply lookup_lt_Some in Hq. rewrite length_alter in Hq.
        apply lookup_ge_None in Hq0. lia.
      * apply lookup_ge_None in Hq0.
        assert (i = length ms) as ->.
        { apply lookup_lt_Some in Hq. rewrite length_app in Hq.
          simpl in Hq. lia. }
        rewrite list_lookup_middle in Hq by done. injection Hq as <-.
        simpl. split; [done|]. split.
        -- apply index_None in Hk. intros Hin. apply Hk.
           destruct IHp as [rest ->]. apply elem_of_app. by left.
        -- exists c. split; [|done]. apply elem_of_app. right.
           by apply list_elem_of_singleton.
Qed.

(** ** The token of the test client *)

(** After the token is set, the property and the environment agree: the
    header is there exactly when the token is not None, and it is the
    token; no other variable of the environment has changed. *)
Theorem jwt_token_in_environ (value : Py.value) (self : client) :
  jwt_token (set_jwt_token value self) = value
  /\ extra_environ (set_jwt_token value self) !! jwt_header_key
     = match value with Py.VNone => None | _ => Some value end
  /\ (forall k : string,
        k <> jwt_header_key ->
        extra_environ (set_jwt_token value self) !! k = extra_environ self !! k).
Proof.
  unfold set_jwt_token, jwt_token.
  destruct value; simpl; (split; [done|]);
    (split; [by rewrite ?lookup_delete_eq, ?lookup_insert_eq|]);
    intros k Hk; by rewrite ?lookup_delete_ne, ?lookup_insert_ne.
Qed.

(** Setting a token and clearing it again gives back the environment there
    was, when it held no token header. *)
Theorem jwt_token_set_clear (value : Py.value) (self : client) :
  extra_environ self !! jwt_header_key = None ->
  extra_environ (set_jwt_token Py.VNone (set_jwt_token value self))
  = extra_environ self.
Proof.
  intros Hnone. unfold set_jwt_token.
  destruct value; simpl;
    rewrite ?delete_insert_eq, ?delete_delete_eq; by apply delete_id.
Qed.

(** The last token set is the one that counts: what was set before leaves
    no trace. *)
Theorem jwt_token_last_wins (first second : Py.value) (self : client) :
  set_jwt_token second (set_jwt_token first self) = set_jwt_token second self.
Proof.
  unfold set_jwt_token.
  destruct first, second; simpl; f_equal;
    by rewrite ?insert_insert_eq, ?delete_insert_eq, ?delete_delete_eq,
               ?insert_delete_eq.
Qed.

Lemma jwt_token_set_clear_witness :
  extra_environ sample_client !! jwt_header_key = None
  /\ extra_environ (set_jwt_token Py.VNone
                      (set_jwt_token (Py.VStr "t0ken") sample_client))
     = extra_environ sample_client.
Proof.
  split; [reflexivity|].
  exact (jwt_token_set_clear (Py.VStr "t0ken") sample_client eq_refl).
Defined.

(** ** Sending a request *)

Lemma dict_get_set_eq (k : string) (v : Py.value) (d : dict Py.value) :
  dict_get k (dict_set k v d) = Some v.
Proof.
  induction d as [|[k' v'] d IH]; simpl.
  - by rewrite bool_decide_eq_true_2.
  - case_bool_decide as Hk; simpl.
    + by rewrite bool_decide_eq_true_2.
    + by rewrite bool_decide_eq_false_2.
Qed.

Lemma dict_get_set_ne (k k' : string) (v : Py.value) (d : dict Py.value) :
  k <> k' -> dict_get k (dict_set k' v d) = dict_get k d.
Proof.
  intros Hne. induction d as [|[k0 v0] d IH]; simpl.
  - by rewrite bool_decide_eq_false_2.
  - case_bool_decide as Hk0; simpl.
    + subst k0. by rewrite !bool_decide_eq_false_2.
    + by rewrite IH.
Qed.

Lemma dict_get_update_absent (k : string) (other : dict Py.value) :
  forall d : dict Py.value,
  k ∉ other.*1 -> dict_get k (dict_update d other) = dict_get k d.
Proof.
  unfold dict_update.
  induction other as [|[k0 v0] other IH]; intros d Hk; [done|].
  simpl in *. apply not_elem_of_cons in Hk as [Hne Hk].
  rewrite IH by done. by apply dict_get_set_ne.
Qed.

Lemma dict_get_update (k : string) (v : Py.value) (other : dict Py.value) :
  forall d : dict Py.value,
  NoDup other.*1 -> (k, v) ∈ other ->
  dict_get k (dict_update d other) = Some v.
Proof.
  induction other as [|[k0 v0] other IH]; intros d Hnd Hin.
  - by apply elem_of_nil in Hin.
  - simpl in Hnd. apply NoDup_cons in Hnd as [Hk0 Hnd].
    change (dict_update d ((k0, v0) :: other))
      with (dict_update (dict_set k0 v0 d) other).
    apply elem_of_cons in Hin as [[= -> ->]|Hin].
    + rewrite dict_get_update_absent by done. apply dict_get_set_eq.
    + by apply IH.
Qed.

Lemma dict_update_not_nil (d other : dict Py.value) :
  d <> [] \/ other <> [] -> dict_update d other <> [].
Proof.
  unfold dict_update. revert d.
  induction other as [|[k0 v0] other IH]; intros d Hne; simpl.
  - by destruct Hne.
  - apply IH. left. by destruct d as [|[k' v'] d]; simpl; [|case_bool_decide].
Qed.

Lemma sort_params_snoc (ps : list FormParameter.t) (p : FormParameter.t) :
  sort_params (ps ++ [p])
  = if bool_decide (FormParameter.type_ p = Some (TName "file"))
    then (((sort_params ps).1
           ++ [(FormParameter.name p, FormParameter.value p)])%list,
          (sort_params ps).2)
    else ((sort_params ps).1,
          dict_set (FormParameter.name p) (FormParameter.value p)
            (sort_params ps).2).
Proof. unfold sort_params. by rewrite foldl_snoc. Qed.

(** What the loop over the parameters sends where: the uploads are the
    parameters of type file, in their order, and the bag holds under each
    name the value of the last parameter of that name that is no upload. *)
Theorem sort_params_spec (params : list FormParameter.t) :
  (sort_params params).1
  = (fun p => (FormParameter.name p, FormParameter.value p))
      <$> filter (fun p => FormParameter.type_ p = Some (TName "file")) params
  /\ (forall k : string,
        dict_get k (sort_params params).2
        = FormParameter.value
            <$> last (filter (fun p => FormParameter.type_ p <> Some (TName "file")
                                       /\ FormParameter.name p = k) params)).
Proof.
  induction params as [|p ps [IHf IHb]] using rev_ind; [done|].
  rewrite sort_params_snoc. case_bool_decide as Hfile; simpl; split.
  - rewrite filter_app, filter_cons_True by done.
    by rewrite filter_nil, fmap_app, IHf.
  - intros k. rewrite filter_app, filter_cons_False by tauto.
    rewrite filter_nil, app_nil_r. apply IHb.
  - rewrite filter_app, filter_cons_False by done.
    by rewrite filter_nil, app_nil_r.
  - intros k. destruct (decide (FormParameter.name p = k)) as [<-|Hne].
    + rewrite filter_app, filter_cons_True by done.
      by rewrite filter_nil, dict_get_set_eq, last_snoc.
    + rewrite filter_app, filter_cons_False by tauto.
      rewrite filter_nil, app_nil_r, dict_get_set_ne by done. apply IHb.
Qed.

Section SendRequestProperties.

Variable DOC_HEADER : string -> string.
Variable UrlParams : Type.
Variable percent : string -> UrlParams -> Py.result string.
Variable quote : string -> string.
Variable request : string -> string -> Kwargs.t -> Py.result Response.

Lemma call_kwargs_params (files : list (string * Py.value))
    (parameters : dict Py.value) (kwargs : Kwargs.t) :
  parameters <> [] ->
  Kwargs.params (call_kwargs files parameters kwargs) = Some parameters.
Proof. by destruct parameters. Qed.

(** The flag that is left of [doc] once the parameters are looked at. *)
Lemma gather_doc (params : option params_arg)
    (query_string : option (dict Py.value)) (doc : bool) :
  (gather params query_string doc).1.2
  = doc && match params with Some (PDict (_ :: _)) => false | _ => true end.
Proof.
  unfold gather.
  destruct params as [[[|kv d]|[|p ps]]|]; simpl; by rewrite ?andb_true_r, ?andb_false_r.
Qed.

Lemma gather_warned (params : option params_arg)
    (query_string : option (dict Py.value)) (doc : bool) :
  (gather params query_string doc).2
  = doc && match params with Some (PDict (_ :: _)) => true | _ => false end.
Proof.
  unfold gather.
  destruct params as [[[|kv d]|[|p ps]]|]; simpl; by rewrite ?andb_true_r, ?andb_false_r.
Qed.

(** The recorder after a call: untouched, or what [document] left when it
    was called, with the URL as the caller wrote it. *)
Lemma send_request_after (self : DocumentaryTestApp)
    (st : state) (role method url : string)
    (query_string : option (dict Py.value)) (url_params : option UrlParams)
    (params : option params_arg) (model : option (list Column.t))
    (doc : bool) (kwargs : Kwargs.t) :
  let s := send_request DOC_HEADER UrlParams percent quote request self st role
             method url query_string url_params params model doc kwargs in
  (after s = st
   /\ ((gather params query_string doc).1.2 = false
       \/ exists e, returned s = Py.Raise e))
  \/ (exists (resp : Response) (request_headers : option (dict string))
             (listed : option (list FormParameter.t)),
        (gather params query_string doc).1.2 = true
        /\ after s
           = (document DOC_HEADER self st role method url resp request_headers
                model listed query_string).1.1
        /\ returned s
           = match (document DOC_HEADER self st role method url resp
                      request_headers model listed query_string).2 with
             | Py.Ok _ => Py.Ok resp
             | Py.Raise e => Py.Raise e
             end).
Proof.
  simpl. unfold send_request.
  destruct (gather params query_string doc) as [[[files parameters] doc'] w].
  simpl.
  destruct (match url_params with
            | Some values => percent url values
            | None => Py.Ok url
            end) as [real_url|e]; [|left; split; [done|right; by exists e]].
  destruct (request _ _ _) as [resp|e]; [|left; split; [done|right; by exists e]].
  destruct doc'; [|left; split; [done|by left]].
  right.
  match goal with
  | |- context [document DOC_HEADER self st role method url resp ?h model ?l
                  query_string] =>
      exists resp, h, l;
      destruct (document DOC_HEADER self st role method url resp h model l
                  query_string) as [[st' listed] r]
  end.
  done.
Qed.

(** No documentation without a structured list: when the caller asks for
    none, or passes a plain dict that is not empty, the recorder is left as
    it was, and the warning is given exactly when a documentation that was
    asked for is dropped because of the dict. *)
Theorem send_request_skips_documentation (self : DocumentaryTestApp)
    (st : state) (role method url : string)
    (query_string : option (dict Py.value)) (url_params : option UrlParams)
    (params : option params_arg) (model : option (list Column.t))
    (doc : bool) (kwargs : Kwargs.t) :
  doc = false \/ (exists kv d, params = Some (PDict (kv :: d))) ->
  after (send_request DOC_HEADER UrlParams percent quote request self st role
           method url query_string url_params params model doc kwargs) = st
  /\ warned (send_request DOC_HEADER UrlParams percent quote request self st
               role method url query_string url_params params model doc kwargs)
     = doc && match params with Some (PDict (_ :: _)) => true | _ => false end.
Proof.
  intros Hskip. split.
  - destruct (send_request_after self st role method url query_string
                url_params params model doc kwargs)
      as [[Hst _]|(resp & h & l & Hdoc & _)]; [done|].
    rewrite gather_doc in Hdoc.
    destruct Hskip as [->|(kv & d & ->)]; [done|].
    by rewrite andb_false_r in Hdoc.
  - rewrite <- gather_warned with (query_string := query_string).
    unfold send_request.
    destruct (gather params query_string doc) as [[[files parameters] doc'] w].
    simpl.
    repeat (match goal with
            | |- context [match ?x with _ => _ end] => destruct x; simpl
            end); done.
Qed.

(** Requests are told apart by the URL as the caller wrote it, not by the
    URL that was requested: once a call was documented and returned, no
    later call with the same role, method, URL template and query keys
    changes the recorder, whatever values fill the template. *)
Theorem send_request_dedups_template (self : DocumentaryTestApp)
    (st : state) (role method url : string)
    (query_string : option (dict Py.value)) (url_params : option UrlParams)
    (params : option params_arg) (model : option (list Column.t))
    (kwargs : Kwargs.t) (resp : Response) :
  (forall kv d, params <> Some (PDict (kv :: d))) ->
  returned (send_request DOC_HEADER UrlParams percent quote request self st
              role method url query_string url_params params model true kwargs)
  = Py.Ok resp ->
  forall (self' : DocumentaryTestApp) (query_string' : option (dict Py.value))
         (url_params' : option UrlParams) (params' : option params_arg)
         (model' : option (list Column.t)) (doc' : bool) (kwargs' : Kwargs.t),
    query_keys query_string' = query_keys query_string ->
    after (send_request DOC_HEADER UrlParams percent quote request self'
             (after (send_request DOC_HEADER UrlParams percent quote request
                       self st role method url query_string url_params params
                       model true kwargs))
             role method url query_string' url_params' params' model' doc'
             kwargs')
    = after (send_request DOC_HEADER UrlParams percent quote request self st
               role method url query_string url_params params model true
               kwargs).
Proof.
  intros Hlist Hret self' qs' up' ps' model' doc' kw' Hkeys.
  set (s1 := send_request DOC_HEADER UrlParams percent quote request self st
               role method url query_string url_params params model true
               kwargs) in *.
  assert (Hseen : RequestSignature.hash
                    (RequestSignature.Build role method url (query_keys query_string))
                  ∈ _signatures (after s1)).
  { destruct (send_request_after self st role method url query_string
                url_params params model true kwargs)
      as [[_ [Hdoc|[e He]]]|(r & h & l & _ & Hst & Hr)].
    - rewrite gather_doc in Hdoc. simpl in Hdoc.
      destruct params as [[[|kv d]|]|]; try done. by destruct (Hlist kv d).
    - fold s1 in He. by rewrite Hret in He.
    - fold s1 in Hst, Hr. rewrite Hst.
      destruct (document DOC_HEADER self st role method url r h model l
                  query_string) as [[st' listed] [[]|e]] eqn:Hdoc.
      + simpl. by eapply document_records.
      + simpl in Hr. by rewrite Hret in Hr. }
  destruct (send_request_after self' (after s1) role method url qs' up' ps'
              model' doc' kw') as [[Hst _]|(r & h & l & _ & Hst & _)]; [done|].
  rewrite Hst, document_seen; [done|]. by rewrite Hkeys.
Qed.

(** A plain dict passed as parameters is the bag that goes on the wire, so
    the query string is written into the caller's own dict: afterwards it
    holds every query key with the query value, however the call ends. *)
Theorem send_request_updates_dict (self : DocumentaryTestApp)
    (st : state) (role method url : string)
    (query : dict Py.value) (url_params : option UrlParams)
    (kv : string * Py.value) (d : dict Py.value)
    (model : option (list Column.t)) (doc : bool) (kwargs : Kwargs.t)
    (k : string) (v : Py.value) :
  NoDup query.*1 -> (k, v) ∈ query ->
  exists d' : dict Py.value,
    params_after (send_request DOC_HEADER UrlParams percent quote request self
                    st role method url (Some query) url_params
                    (Some (PDict (kv :: d))) model doc kwargs)
    = Some (PDict d')
    /\ dict_get k d' = Some v.
Proof.
  intros Hnd Hin.
  exists (dict_update (kv :: d) query). split.
  - unfold send_request, gather.
    destruct query as [|q query]; [by apply elem_of_nil in Hin|].
    cbn [Py.truthy default].
    repeat (match goal with
            | |- context [match ?x with _ => _ end] => destruct x; simpl
            end); done.
  - by apply dict_get_update.
Qed.

(** The query string has the last word on the wire: a key of the query
    string travels with the query value in the parameters handed to the
    test client, whatever parameter of that name the caller passed. *)
Theorem query_string_wins (params : option params_arg) (query : dict Py.value)
    (doc : bool) (kwargs : Kwargs.t) (k : string) (v : Py.value) :
  NoDup query.*1 -> (k, v) ∈ query ->
  exists bag : dict Py.value,
    Kwargs.params (call_kwargs (gather params (Some query) doc).1.1.1
                     (gather params (Some query) doc).1.1.2 kwargs)
    = Some bag
    /\ dict_get k bag = Some v.
Proof.
  intros Hnd Hin.
  destruct query as [|q query]; [by apply elem_of_nil in Hin|].
  unfold gather. cbn [Py.truthy default].
  destruct params as [[[|kv d]|[|p ps]]|]; cbn [fst snd];
    (eexists; split;
     [apply call_kwargs_params, dict_update_not_nil; by right
     |by apply dict_get_update]).
Qed.

End SendRequestProperties.

(** ** Field metadata *)

Lemma append_not_self (s t : string) : t <> "" -> s +:+ t <> s.
Proof.
  intros Ht Heq. apply (f_equal String.length) in Heq.
  rewrite length_append in Heq. destruct t; [done|]. simpl in Heq. lia.
Qed.

(** An attachment column is described by two fields, the URL and the
    thumbnails, named after the wire name with Url and Thumbnails behind
    it, and never by a field of the wire name itself; its own type is not
    asked for, and the message is that of the annotations or Invalid File. *)
Theorem attachment_expansion (c : Attribute.t) (json : Py.value) :
  Attribute.info c !! "json" = Some json ->
  is_Some (Attribute.info c !! "attachment") ->
  exists url thumbnails : MetadataField.t,
    MetadataField.from_column c None = MetadataField.Fields [url; thumbnails]
    /\ MetadataField.json_name url = Py.VStr (Py.str json +:+ "Url")
    /\ MetadataField.json_name thumbnails = Py.VStr (Py.str json +:+ "Thumbnails")
    /\ MetadataField.type_name url = "url"
    /\ MetadataField.type_name thumbnails = "dict"
    /\ MetadataField.key url = MetadataField.public_key (Attribute.key c +:+ "_url")
    /\ MetadataField.key thumbnails
       = MetadataField.public_key (Attribute.key c +:+ "_thumbnails")
    /\ MetadataField.message url
       = default (Py.VStr "Invalid File") (Attribute.info c !! "message")
    /\ MetadataField.message thumbnails = MetadataField.message url
    /\ MetadataField.json_name url <> json
    /\ MetadataField.json_name thumbnails <> json.
Proof.
  intros Hjson Hatt. unfold MetadataField.from_column.
  rewrite Hjson, bool_decide_eq_true_2 by done.
  eexists _, _. split; [done|]. simpl.
  repeat (split; [done|]).
  split; (destruct json as [| | |s]; try done; intros [= Heq];
          by apply append_not_self in Heq).
Qed.

(** When [from_column] fails: with the error of the missing key when the
    annotations have no wire name, and with the error of the unknown type
    when the column is no attachment, is not marked unreadable, and has
    neither a type nor a target; in no other case. *)
Theorem from_column_fails_iff (c : Attribute.t) (e : MetadataField.error) :
  MetadataField.from_column c None = MetadataField.Failed e
  <-> (Attribute.info c !! "json" = None /\ e = MetadataField.KeyError "json")
      \/ (is_Some (Attribute.info c !! "json")
          /\ Attribute.info c !! "attachment" = None
          /\ truth (default Py.VNone (Attribute.info c !! "unreadable")) = false
          /\ Attribute.type_ c = None
          /\ Attribute.target c = None
          /\ e = MetadataField.AttributeError
                   ("Unable to recognize type of the column: " +:+ Attribute.name c)).
Proof.
  unfold MetadataField.from_column.
  destruct (Attribute.info c !! "json") as [json|] eqn:Hjson.
  - case_bool_decide as Hatt.
    + split; [done|]. intros [[? _]|(_ & Hno & _)]; [done|].
      rewrite Hno in Hatt. by destruct Hatt.
    + apply eq_None_not_Some in Hatt.
      destruct (truth (default Py.VNone (Attribute.info c !! "unreadable")));
        [split; [done|]; by intros [[? _]|(_ & _ & ? & _)]|].
      destruct (Attribute.type_ c) as [ty|];
        [split; [done|]; by intros [[? _]|(_ & _ & _ & ? & _)]|].
      destruct (Attribute.target c) as [n|]; simpl;
        [split; [done|]; by intros [[? _]|(_ & _ & _ & _ & ? & _)]|].
      split.
      * intros [= <-]. right. by repeat split.
      * intros [[? _]|(_ & _ & _ & _ & _ & ->)]; done.
  - split.
    + intros [= <-]. by left.
    + intros [[_ ->]|([? ?] & _)]; done.
Qed.

(** The two readers of a column agree on a column that is no attachment:
    the JSON of the field that [from_column] makes shows the name, the type
    name, the default and the optionality that the table of [document]
    shows for the parameter synthesized from the same column. *)
Theorem extractor_agrees_with_merger (c : Attribute.t) (column : Column.t) :
  merger_column c = Some column ->
  Column.attachment column = false ->
  exists f : MetadataField.t,
    MetadataField.from_column c None = MetadataField.Fields [f]
    /\ dict_get "name" (MetadataField.to_json f)
       = Some (Py.VStr (FormParameter.name (synthesize column)))
    /\ dict_get "type_" (MetadataField.to_json f)
       = Some (Py.VStr (FormParameter.type_string (synthesize column)))
    /\ dict_get "default" (MetadataField.to_json f)
       = Some (FormParameter.default (synthesize column))
    /\ (Py.VBool <$> FormParameter.optional (synthesize column))
       = dict_get "optional" (MetadataField.to_json f).
Proof.
  unfold merger_column, MetadataField.from_column.
  destruct (Attribute.info c !! "json") as [[| | |json]|] eqn:Hjson; try done.
  destruct (Attribute.type_ c) as [ty|] eqn:Hty; [|done].
  destruct (Attribute.nullable c) as [nullable|] eqn:Hnull; [|done].
  destruct (bool_decide (is_Some (Attribute.info c !! "attachment"))) eqn:Hb;
    intros [= <-]; simpl; [done|]. intros _.
  unfold synthesize, resolve_type, resolve_default, FormParameter.type_string.
  simpl.
  destruct (truth (default Py.VNone (Attribute.info c !! "unreadable")));
    eexists; (split; [done|]); simpl;
    by destruct (Attribute.default c) as [[]|].
Qed.

(** ** Groups that collide *)

(** The name of a group does not tell its two segments apart: a path whose
    first segment ends in an underscore part and a path whose second
    segment starts with it fall into the same file, under the heading of
    whichever was documented first. *)
Theorem group_collision (method a b c : string) :
  Py.occurs "/" a = false -> Py.occurs "?" a = false ->
  Py.occurs "/" b = false -> Py.occurs "?" b = false ->
  Py.occurs "/" c = false -> Py.occurs "?" c = false ->
  exists group : string,
    resolve_group method ("/" +:+ (a +:+ "_" +:+ b) +:+ "/" +:+ c)
    = Py.Ok (c, group)
    /\ resolve_group method ("/" +:+ a +:+ "/" +:+ (b +:+ "_" +:+ c))
       = Py.Ok (b +:+ "_" +:+ c, group).
Proof.
  intros Ha Qa Hb Qb Hc Qc.
  assert (Hocc : forall ch x y, Py.occurs ch x = false -> Py.occurs ch y = false ->
                 ch <> "_"%char -> Py.occurs ch (x +:+ "_" +:+ y) = false).
  { intros ch x y Hx Hy Hch. induction x as [|d x IH].
    - change (Py.occurs ch (String "_" y) = false). simpl. by case_decide.
    - change (Py.occurs ch (String d (x +:+ "_" +:+ y)) = false).
      simpl in *. case_decide; [done|]. by apply IH. }
  destruct (path_parts_multi (a +:+ "_" +:+ b) c "") as [m1 H1];
    [by apply Hocc|by apply Hocc|done|done|by left|].
  destruct (path_parts_multi a (b +:+ "_" +:+ c) "") as [m2 H2];
    [done|done|by apply Hocc|by apply Hocc|by left|].
  rewrite !append_empty_r in H1, H2.
  exists (a +:+ "_" +:+ b +:+ "_" +:+ c +:+ "_" +:+ Py.lower method).
  rewrite (resolve_group_multi _ _ _ _ _ H1), (resolve_group_multi _ _ _ _ _ H2).
  by rewrite !append_assoc.
Qed.

Lemma group_collision_witness :
  exists group : string,
    resolve_group "GET" "/v1_beta/users" = Py.Ok ("users", group)
    /\ resolve_group "GET" "/v1/beta_users" = Py.Ok ("beta_users", group).
Proof.
  exact (group_collision "GET" "v1" "beta" "users"
           eq_refl eq_refl eq_refl eq_refl eq_refl eq_refl).
Defined.

(** ** Examples of the properties above *)

Ltac not_in_set :=
  match goal with
  | |- ?x ∉ ?X => apply (bool_decide_eq_false_1 (x ∈ X)); vm_compute; reflexivity
  end.

Lemma document_touches_one_file_witness :
  is_Some (files after_failure !! "docs/photos.md")
  /\ files (document sample_header sample_app after_failure "admin" "GET"
              "/widgets" sample_response None None None query_ab).1.1
       !! "docs/photos.md"
     = files after_failure !! "docs/photos.md".
Proof.
  split; [vm_compute; eauto|].
  apply (document_touches_one_file sample_header sample_app after_failure
           "admin" "GET" "/widgets" sample_response None None None query_ab
           "docs/photos.md").
  intros entity group Hg. vm_compute in Hg. injection Hg as _ <-.
  intros Heq. vm_compute in Heq. discriminate Heq.
Defined.

Lemma header_written_once_witness :
  files (document sample_header sample_app documented_ab "admin" "GET"
           "/widgets" other_response None None None query_ba).1.1
    !! "docs/widgets.md"
  = Some (((sample_header "0.1" +:+ (nl +:+ "widgets")
            +:+ (nl +:+ "-------" +:+ nl))
           +:+ (write_entry "admin" "GET" "/widgets" sample_response None None
                  query_ab).1
           +:+ nl)
          +:+ (write_entry "admin" "GET" "/widgets" other_response None None
                 query_ba).1
          +:+ nl).
Proof.
  assert (H1 : RequestSignature.hash
                 (RequestSignature.Build "admin" "GET" "/widgets" (query_keys query_ab))
               ∉ _signatures fresh) by not_in_set.
  assert (H4 : Py.path_join (destination_dir sample_app) ("widgets" +:+ ".md")
               ∉ _files fresh) by (vm_compute; apply not_elem_of_nil).
  assert (H5 : document sample_header sample_app fresh "admin" "GET" "/widgets"
                 sample_response None None None query_ab
               = (documented_ab, None, Py.Ok tt)) by (vm_compute; reflexivity).
  assert (H6 : RequestSignature.hash
                 (RequestSignature.Build "admin" "GET" "/widgets" (query_keys query_ba))
               ∉ _signatures documented_ab) by not_in_set.
  exact (header_written_once sample_header sample_app fresh documented_ab
           "admin" "GET" "/widgets" "admin" "GET" "/widgets"
           sample_response other_response None None None None None None None
           query_ab query_ba "widgets" "widgets" "widgets" (Py.Ok tt)
           H1 eq_refl eq_refl H4 H5 H6).
Defined.

Lemma document_unseen_changes_witness :
  resolve_group "GET" "/widgets" = Py.Ok ("widgets", "widgets")
  /\ (document sample_header sample_app documented_ab "admin" "GET" "/widgets"
        sample_response None None None query_ba).1.1 <> documented_ab.
Proof.
  split; [reflexivity|].
  apply (document_unseen_changes sample_header sample_app documented_ab
           "admin" "GET" "/widgets" sample_response None None None query_ba
           "widgets" "widgets"); [not_in_set|reflexivity].
Defined.

Lemma document_closes_entry_witness :
  (document sample_header sample_app fresh "admin" "POST" "/photos"
     sample_response None None (Some [broken_upload]) None).2
  = Py.Raise (Py.TypeError "expected str, bytes or os.PathLike object")
  /\ exists content : string,
       files after_failure !! "docs/photos.md" = Some content
       /\ Py.endswith "010"%char content = true
       /\ "docs/photos.md" ∈ _files after_failure.
Proof.
  split; [vm_compute; reflexivity|].
  apply (document_closes_entry sample_header sample_app fresh "admin" "POST"
           "/photos" sample_response None None (Some [broken_upload]) None
           "photos" "photos"); [not_in_set|reflexivity].
Defined.

Lemma document_failure_not_recorded_witness :
  _signatures after_failure = _signatures fresh
  /\ RequestSignature.hash
       (RequestSignature.Build "admin" "POST" "/photos" (query_keys None))
       ∉ _signatures after_failure.
Proof.
  apply (document_failure_not_recorded sample_header sample_app fresh
           after_failure "admin" "POST" "/photos" sample_response None None
           (Some [broken_upload]) (Some [broken_upload]) None
           (Py.TypeError "expected str, bytes or os.PathLike object")).
  vm_compute. reflexivity.
Defined.

Lemma document_no_slash_witness :
  document sample_header sample_app documented_ab "admin" "GET" "widgets?a=1"
    sample_response None None None query_ab
  = (documented_ab, None,
     Py.Raise (Py.ValueError "not enough values to unpack (expected 2, got 0)")).
Proof.
  apply (document_no_slash sample_header sample_app documented_ab "admin" "GET"
           "widgets?a=1" sample_response None None None query_ab);
    [not_in_set|reflexivity].
Defined.

Lemma put_hides_optional_witness :
  write_entry "admin" "PUT" "/books/1" sample_response None
    (Some [title_param; tag_first]) None
  = write_entry "admin" "PUT" "/books/1" sample_response None
      (Some [FormParameter.Build "title" (Py.VStr "Dune") None (Some true) Py.VNone;
             FormParameter.Build "title" (Py.VStr "a") None (Some false) (Py.VStr "x")])
      None.
Proof.
  apply (put_hides_optional "admin" "PUT" "/books/1" sample_response None
           [title_param; tag_first]); [reflexivity|].
  repeat constructor.
Defined.

Lemma merge_keeps_names_distinct_witness :
  NoDup (FormParameter.name <$> [title_param])
  /\ NoDup (FormParameter.name
             <$> merge_params [price_column; title_column; price_column]
                   [title_param]).
Proof.
  assert (Hnd : NoDup (FormParameter.name <$> [title_param]))
    by apply NoDup_singleton.
  split; [exact Hnd|].
  exact (merge_keeps_names_distinct [price_column; title_column; price_column]
           [title_param] Hnd).
Defined.

Lemma merge_represents_columns_witness :
  exists (i : nat) (p : FormParameter.t) (latest : Column.t),
    index "price" (merge_params [price_column; title_column] [title_param]) = Some i
    /\ merge_params [price_column; title_column] [title_param] !! i = Some p
    /\ FormParameter.name p = "price"
    /\ is_Some (FormParameter.type_ p)
    /\ is_Some (FormParameter.optional p)
    /\ last (named "price" [price_column; title_column]) = Some latest
    /\ FormParameter.default p = resolve_default latest.
Proof.
  apply (merge_represents_columns [price_column; title_column] [title_param]
           price_column).
  constructor.
Defined.

Lemma send_request_skips_documentation_witness :
  after (send_request sample_header string sample_percent sample_quote
           sample_request sample_app fresh "admin" "POST" "/books" None None
           (Some (PDict [("title", Py.VStr "Dune")])) None true no_kwargs)
  = fresh
  /\ warned (send_request sample_header string sample_percent sample_quote
               sample_request sample_app fresh "admin" "POST" "/books" None None
               (Some (PDict [("title", Py.VStr "Dune")])) None true no_kwargs)
     = true.
Proof.
  apply (send_request_skips_documentation sample_header string sample_percent
           sample_quote sample_request sample_app fresh "admin" "POST" "/books"
           None None (Some (PDict [("title", Py.VStr "Dune")])) None true
           no_kwargs).
  right. by eexists _, _.
Defined.

Lemma send_request_dedups_template_witness :
  returned (send_request sample_header string sample_percent sample_quote
              sample_request sample_app fresh "admin" "GET" "/books/" None
              (Some "1") (Some (PList [title_param])) None true no_kwargs)
  = Py.Ok sample_response
  /\ after (send_request sample_header string sample_percent sample_quote
              sample_request sample_app
              (after (send_request sample_header string sample_percent
                        sample_quote sample_request sample_app fresh "admin"
                        "GET" "/books/" None (Some "1")
                        (Some (PList [title_param])) None true no_kwargs))
              "admin" "GET" "/books/" None (Some "2") None None true no_kwargs)
     = after (send_request sample_header string sample_percent sample_quote
                sample_request sample_app fresh "admin" "GET" "/books/" None
                (Some "1") (Some (PList [title_param])) None true no_kwargs).
Proof.
  assert (Hret : returned (send_request sample_header string sample_percent
                             sample_quote sample_request sample_app fresh
                             "admin" "GET" "/books/" None (Some "1")
                             (Some (PList [title_param])) None true no_kwargs)
                 = Py.Ok sample_response) by (vm_compute; reflexivity).
  split; [exact Hret|].
  apply (send_request_dedups_template sample_header string sample_percent
           sample_quote sample_request sample_app fresh "admin" "GET" "/books/"
           None (Some "1") (Some (PList [title_param])) None no_kwargs
           sample_response); [done|exact Hret|reflexivity].
Defined.

Lemma send_request_updates_dict_witness :
  exists d' : dict Py.value,
    params_after (send_request sample_header string sample_percent sample_quote
                    sample_request sample_app fresh "admin" "GET" "/books"
                    (Some [("page", Py.VInt 2)]) None
                    (Some (PDict [("title", Py.VStr "Dune")])) None false
                    no_kwargs)
    = Some (PDict d')
    /\ dict_get "page" d' = Some (Py.VInt 2).
Proof.
  apply (send_request_updates_dict sample_header string sample_percent
           sample_quote sample_request sample_app fresh "admin" "GET" "/books"
           [("page", Py.VInt 2)] None ("title", Py.VStr "Dune") [] None false
           no_kwargs "page" (Py.VInt 2)).
  - apply NoDup_singleton.
  - constructor.
Defined.

Lemma query_string_wins_witness :
  exists bag : dict Py.value,
    Kwargs.params
      (call_kwargs
         (gather (Some (PList [title_param])) (Some [("title", Py.VStr "Emma")])
            true).1.1.1
         (gather (Some (PList [title_param])) (Some [("title", Py.VStr "Emma")])
            true).1.1.2
         no_kwargs)
    = Some bag
    /\ dict_get "title" bag = Some (Py.VStr "Emma").
Proof.
  apply (query_string_wins (Some (PList [title_param]))
           [("title", Py.VStr "Emma")] true no_kwargs "title" (Py.VStr "Emma")).
  - apply NoDup_singleton.
  - constructor.
Defined.

Lemma attachment_expansion_witness :
  exists url thumbnails : MetadataField.t,
    MetadataField.from_column photo_attribute None
    = MetadataField.Fields [url; thumbnails]
    /\ MetadataField.json_name url = Py.VStr "photoUrl"
    /\ MetadataField.json_name thumbnails = Py.VStr "photoThumbnails"
    /\ MetadataField.type_name url = "url"
    /\ MetadataField.type_name thumbnails = "dict"
    /\ MetadataField.key url = "photo_url"
    /\ MetadataField.key thumbnails = "photo_thumbnails"
    /\ MetadataField.message url = Py.VStr "Invalid File"
    /\ MetadataField.message thumbnails = MetadataField.message url
    /\ MetadataField.json_name url <> Py.VStr "photo"
    /\ MetadataField.json_name thumbnails <> Py.VStr "photo".
Proof.
  apply (attachment_expansion photo_attribute (Py.VStr "photo")).
  - vm_compute. reflexivity.
  - vm_compute. eauto.
Defined.

Lemma extractor_agrees_with_merger_witness :
  merger_column title_attribute = Some title_column
  /\ exists f : MetadataField.t,
       MetadataField.from_column title_attribute None = MetadataField.Fields [f]
       /\ dict_get "name" (MetadataField.to_json f) = Some (Py.VStr "title")
       /\ dict_get "type_" (MetadataField.to_json f) = Some (Py.VStr "str")
       /\ dict_get "default" (MetadataField.to_json f) = Some (Py.VStr "untitled")
       /\ Some (Py.VBool false) = dict_get "optional" (MetadataField.to_json f).
Proof.
  assert (Hcol : merger_column title_attribute = Some title_column)
    by (vm_compute; reflexivity).
  split; [exact Hcol|].
  exact (extractor_agrees_with_merger title_attribute title_column Hcol eq_refl).
Defined.
